(** * AudioServer: the request handlers of [audioserver.py]

    A shallow embedding of the four flask-restful resources ([Create],
    [Delete], [Update], [Get]) and of [new_audio], followed by the
    properties of the handlers.

    Modelling conventions.
    - A Python [str] is a [string]; the case mappings [str.lower] and
      [str.capitalize] are the ASCII ones (letters [A]-[Z] / [a]-[z]; every
      other character is left as it is), which is what the runtime does on
      ASCII text.  [new_audio_with] takes [str.lower] as a parameter, for
      the statements that are made about every string.
    - A Python value that travels through a JSON body, a document or a
      response is a [pyval]; a [dict] is an association list that keeps the
      insertion order and has one entry per key.  JSON numbers are integers.
    - The handlers run in a state-and-exception monad [M] over a [world]:
      the content of the collection, the faults the driver is going to
      raise, and a log of every call made to a collaborator (the store and
      the metadata generator of module [audio]).
    - A handler either returns a pair (response body, status) or lets an
      exception escape. *)

From Stdlib Require Import String Ascii ZArith List Bool Lia DecimalString.
Import ListNotations.
Local Open Scope string_scope.
Local Open Scope Z_scope.

(** ** Strings *)

Module Str.

Definition is_upper (c : ascii) : bool :=
  let n := N_of_ascii c in ((65 <=? n) && (n <=? 90))%N.

Definition is_lower (c : ascii) : bool :=
  let n := N_of_ascii c in ((97 <=? n) && (n <=? 122))%N.

Definition lower_char (c : ascii) : ascii :=
  if is_upper c then ascii_of_N (N_of_ascii c + 32) else c.

Definition upper_char (c : ascii) : ascii :=
  if is_lower c then ascii_of_N (N_of_ascii c - 32) else c.

(** [str.lower] *)
Fixpoint lower (s : string) : string :=
  match s with
  | EmptyString => EmptyString
  | String c r => String (lower_char c) (lower r)
  end.

(** [str.upper] *)
Fixpoint upper (s : string) : string :=
  match s with
  | EmptyString => EmptyString
  | String c r => String (upper_char c) (upper r)
  end.

(** [str.capitalize]: the first character in upper case, the rest in lower
    case. *)
Definition capitalize (s : string) : string :=
  match s with
  | EmptyString => EmptyString
  | String c r => String (upper_char c) (lower r)
  end.

(** Two characters that differ at most by their letter case. *)
Definition same_letter (c d : ascii) : bool :=
  Ascii.eqb (lower_char c) (lower_char d).

(** Two strings that differ at most by the case of their letters; written
    without [lower], character by character. *)
Fixpoint eq_ignore_case (s t : string) : bool :=
  match s, t with
  | EmptyString, EmptyString => true
  | String c s', String d t' => same_letter c d && eq_ignore_case s' t'
  | _, _ => false
  end.

(** A character of the ASCII range, and a string made of such characters
    ([str.isascii]). *)
Definition is_ascii_char (c : ascii) : bool := (N_of_ascii c <? 128)%N.

Fixpoint is_ascii (s : string) : bool :=
  match s with
  | EmptyString => true
  | String c r => is_ascii_char c && is_ascii r
  end.

(** [str(n)] for an integer. *)
Definition of_Z (z : Z) : string := NilZero.string_of_int (Z.to_int z).

(** [x in l] for a list of strings. *)
Definition mem (x : string) (l : list string) : bool :=
  existsb (String.eqb x) l.

End Str.

(** ** Values *)

#[local] Set Warnings "-register-all".

Inductive pyval : Type :=
| PNone
| PBool (b : bool)
| PInt (z : Z)
| PStr (s : string)
| PList (l : list pyval)
| PDict (d : list (string * pyval)).

Definition dict : Type := list (string * pyval).

(** [d[k]] as a lookup; [None] stands for the [KeyError]. *)
Fixpoint dict_get (k : string) (d : dict) : option pyval :=
  match d with
  | [] => None
  | (k', v) :: r => if String.eqb k k' then Some v else dict_get k r
  end.

(** [d[k] = v]: an existing key keeps its place, a new one goes last. *)
Fixpoint dict_set (k : string) (v : pyval) (d : dict) : dict :=
  match d with
  | [] => [(k, v)]
  | (k', v') :: r =>
      if String.eqb k k' then (k, v) :: r else (k', v') :: dict_set k v r
  end.

(** [repr] of a string, for strings without quotes, backslashes or control
    characters. *)
Definition repr_str (s : string) : string := "'" ++ s ++ "'".

(** [str(v)] and [repr(v)], with [repr_str] for the strings inside. *)
Fixpoint py_repr (v : pyval) : string :=
  match v with
  | PNone => "None"
  | PBool true => "True"
  | PBool false => "False"
  | PInt z => Str.of_Z z
  | PStr s => repr_str s
  | PList l =>
      "[" ++ (fix items (l : list pyval) : string :=
                match l with
                | [] => ""
                | [x] => py_repr x
                | x :: r => py_repr x ++ ", " ++ items r
                end) l ++ "]"
  | PDict d =>
      "{" ++ (fix items (d : list (string * pyval)) : string :=
                match d with
                | [] => ""
                | [(k, x)] => repr_str k ++ ": " ++ py_repr x
                | (k, x) :: r => repr_str k ++ ": " ++ py_repr x ++ ", " ++ items r
                end) d ++ "}"
  end.

Definition py_str (v : pyval) : string :=
  match v with
  | PStr s => s
  | _ => py_repr v
  end.

(** Truth value of [if x:] for the three kinds of object the handlers
    test: an optional integer, an optional document, an optional object. *)
Definition truthy_int (x : option Z) : bool :=
  match x with
  | None => false
  | Some z => negb (z =? 0)
  end.

Definition truthy_doc (x : option dict) : bool :=
  match x with
  | None => false
  | Some [] => false
  | Some (_ :: _) => true
  end.

(** ** Exceptions *)

Inductive exn : Type :=
| KeyError (key : string)
| TypeError (msg : string)
| AttributeError (msg : string)
| MetadataValueError (detail : string)
| MetadataGenerationError (detail : string)
| StoreError (detail : string)
| OtherError (detail : string).

(** [str(e)]: the [repr] of the key for a [KeyError], the single argument
    for the others. *)
Definition exn_str (e : exn) : string :=
  match e with
  | KeyError k => repr_str k
  | TypeError m | AttributeError m | MetadataValueError m
  | MetadataGenerationError m | StoreError m | OtherError m => m
  end.

(** ** The world of a request *)

(** The three classes of module [audio]. *)
Inductive AudioType : Type := Song | Podcast | Audiobook.

(** An object of one of the three classes; the handlers only read its
    [metadata] attribute, and test the object against [None] ([if not
    audiofile]: an object is true, [None] is false). *)
Record audio : Type := { kind : AudioType; metadata : dict }.

(** Calls made to the collaborators, in the order in which they happen. *)
Inductive event : Type :=
| EvConstruct (t : AudioType) (attributes : pyval)
| EvInsertOne (doc : dict)
| EvFindOne (flt : dict)
| EvFind (flt : dict)
| EvFindOneAndDelete (flt : dict)
| EvFindOneAndReplace (flt : dict) (replacement : dict).

Definition is_store_event (e : event) : bool :=
  match e with
  | EvConstruct _ _ => false
  | _ => true
  end.

(** [docs]: the documents of the collection, in their natural order.
    [faults]: what the driver does at the coming calls, one entry per call
    ([Some detail]: the call raises; [None], or no entry left: it goes
    through).  [acknowledged]: whether writes are acknowledged.
    [next_oid]: the next identifier the driver assigns to a document
    inserted without [_id].  [log]: the calls made so far. *)
Record world : Type := {
  docs : list dict;
  faults : list (option string);
  acknowledged : bool;
  next_oid : Z;
  log : list event
}.

Definition store_events (w : world) : list event :=
  filter is_store_event (log w).

(** The world with one more call in its log. *)
Definition log_event (ev : event) (w : world) : world :=
  {| docs := docs w; faults := faults w; acknowledged := acknowledged w;
     next_oid := next_oid w; log := log w ++ [ev] |}.

(** ** The monad of the handlers *)

Inductive res (A : Type) : Type :=
| Ok (a : A)
| Exc (e : exn).
Arguments Ok {A} a.
Arguments Exc {A} e.

Definition M (A : Type) : Type := world -> res A * world.

Definition ret {A} (a : A) : M A := fun w => (Ok a, w).

Definition raise {A} (e : exn) : M A := fun w => (Exc e, w).

Definition bind {A B} (m : M A) (k : A -> M B) : M B :=
  fun w =>
    match m w with
    | (Ok a, w') => k a w'
    | (Exc e, w') => (Exc e, w')
    end.

(** [try: m  except ...: h]: the clauses are a partial function on the
    exception; an exception no clause takes goes on. *)
Definition try_except {A} (m : M A) (h : exn -> option (M A)) : M A :=
  fun w =>
    match m w with
    | (Ok a, w') => (Ok a, w')
    | (Exc e, w') =>
        match h e with
        | Some k => k w'
        | None => (Exc e, w')
        end
    end.

(** What a handler returns: the body of the response and its status. *)
Definition reply : Type := dict * Z.

(** A block of a handler either returns from the handler ([inl]) or falls
    through with a value ([inr]). *)
Definition return_ {A} (r : reply) : M (reply + A) := ret (inl r).
Definition continue {A} (a : A) : M (reply + A) := ret (inr a).

Definition bind_block {A} (m : M (reply + A)) (k : A -> M reply) : M reply :=
  bind m (fun r => match r with inl rep => ret rep | inr a => k a end).

Declare Scope py_scope.
Delimit Scope py_scope with py.
Notation "x <- m ;; k" := (bind m (fun x => k))
  (at level 61, m at next level, right associativity) : py_scope.
Notation "x <~ m ;; k" := (bind_block m (fun x => k))
  (at level 61, m at next level, right associativity) : py_scope.
Notation "' p <~ m ;; k" := (bind_block m (fun x => match x with p => k end))
  (at level 61, p pattern, m at next level, right associativity) : py_scope.
Local Open Scope py_scope.

(** ** The store: the calls of [pymongo] the handlers make *)

Module Store.

(** Equality of two field values in a filter; the filters of this program
    hold a string and an integer, so only scalars are compared. *)
Definition bson_eqb (a b : pyval) : bool :=
  match a, b with
  | PNone, PNone => true
  | PBool x, PBool y => Bool.eqb x y
  | PInt x, PInt y => Z.eqb x y
  | PStr x, PStr y => String.eqb x y
  | _, _ => false
  end.

(** A document matches a filter when it has every field of the filter with
    an equal value. *)
Definition matches (flt doc : dict) : bool :=
  forallb (fun kv : string * pyval =>
             match dict_get (fst kv) doc with
             | Some v => bson_eqb v (snd kv)
             | None => false
             end) flt.

Fixpoint remove_first (flt : dict) (ds : list dict) : list dict :=
  match ds with
  | [] => []
  | d :: r => if matches flt d then r else d :: remove_first flt r
  end.

Fixpoint replace_first (flt new : dict) (ds : list dict) : list dict :=
  match ds with
  | [] => []
  | d :: r => if matches flt d then new :: r else d :: replace_first flt new r
  end.

(** The world after a call to the driver was logged and took its entry
    of [faults]. *)
Definition called (ev : event) (w : world) : world :=
  {| docs := docs w; faults := tl (faults w); acknowledged := acknowledged w;
     next_oid := next_oid w; log := log w ++ [ev] |}.

(** One call to the driver: it is logged, takes the next entry of
    [faults], and either raises or runs [op] on the documents. *)
Definition call {A} (ev : event) (op : world -> res A * world) : M A :=
  fun w =>
    match faults w with
    | Some detail :: _ => (Exc (StoreError detail), called ev w)
    | _ => op (called ev w)
    end.

Definition with_docs (w : world) (ds : list dict) : world :=
  {| docs := ds; faults := faults w; acknowledged := acknowledged w;
     next_oid := next_oid w; log := log w |}.

(** [collection.find_one(flt)] *)
Definition find_one (flt : dict) : M (option dict) :=
  call (EvFindOne flt) (fun w => (Ok (find (matches flt) (docs w)), w)).

(** [collection.find(flt)], read to its end. *)
Definition find_all (flt : dict) : M (list dict) :=
  call (EvFind flt) (fun w => (Ok (filter (matches flt) (docs w)), w)).

(** [collection.find_one_and_delete(flt)] *)
Definition find_one_and_delete (flt : dict) : M (option dict) :=
  call (EvFindOneAndDelete flt)
    (fun w => (Ok (find (matches flt) (docs w)),
               with_docs w (remove_first flt (docs w)))).

(** [collection.find_one_and_replace(flt, new)]: the first match is
    replaced as a whole and returned as it was before. *)
Definition find_one_and_replace (flt new : dict) : M (option dict) :=
  call (EvFindOneAndReplace flt new)
    (fun w => (Ok (find (matches flt) (docs w)),
               with_docs w (replace_first flt new (docs w)))).

(** What [insert_one] gives back. *)
Record InsertOneResult : Type := {
  result_acknowledged : bool;
  inserted_id : pyval
}.

(** [collection.insert_one(doc)]: a document without [_id] gets the next
    identifier of the driver; an [_id] already in the collection is
    refused. *)
Definition insert_one (doc : dict) : M InsertOneResult :=
  call (EvInsertOne doc)
    (fun w =>
       match dict_get "_id" doc with
       | Some i =>
           if existsb (matches [("_id", i)]) (docs w)
           then (Exc (StoreError "duplicate key"), w)
           else (Ok {| result_acknowledged := acknowledged w; inserted_id := i |},
                 with_docs w (docs w ++ [doc]))
       | None =>
           let i := PInt (next_oid w) in
           (Ok {| result_acknowledged := acknowledged w; inserted_id := i |},
            {| docs := docs w ++ [("_id", i) :: doc]; faults := faults w;
               acknowledged := acknowledged w; next_oid := next_oid w + 1;
               log := log w |})
       end).

End Store.

(** ** The handlers *)

Definition generate_400_response (error : string) : dict :=
  [("status", PInt 400); ("message", PStr "Bad Request"); ("error", PStr error)].

Definition generate_500_response (error : string) : dict :=
  [("status", PInt 500); ("message", PStr "Internal Server Error");
   ("error", PStr error)].

(** The list [['song', 'podcast', 'audiobook']] of the three path checks. *)
Definition supported_types : list string := ["song"; "podcast"; "audiobook"].

(** [data[key]] on a value of a JSON body: a [KeyError] for a dict without
    the key, a [TypeError] for anything that is not a dict. *)
Definition py_getitem (data : pyval) (key : string) : M pyval :=
  match data with
  | PDict d =>
      match dict_get key d with
      | Some v => ret v
      | None => raise (KeyError key)
      end
  | PList _ =>
      raise (TypeError "list indices must be integers or slices, not str")
  | PStr _ => raise (TypeError "string indices must be integers, not 'str'")
  | PNone => raise (TypeError "'NoneType' object is not subscriptable")
  | PBool _ => raise (TypeError "'bool' object is not subscriptable")
  | PInt _ => raise (TypeError "'int' object is not subscriptable")
  end.

(** [doc[key]] on the result of a [find_one...] call. *)
Definition doc_getitem (doc : option dict) (key : string) : M pyval :=
  match doc with
  | Some d => py_getitem (PDict d) key
  | None => py_getitem PNone key
  end.

(** [x.capitalize()] on a value of a JSON body. *)
Definition py_capitalize (x : pyval) : M string :=
  match x with
  | PStr s => ret (Str.capitalize s)
  | _ => raise (AttributeError "object has no attribute 'capitalize'")
  end.

(** [isinstance(obj)]: the builtin takes two arguments, so the call with
    one raises [TypeError] whatever the object. *)
Definition isinstance_1 (obj : pyval) : M bool :=
  raise (TypeError "isinstance expected 2 arguments, got 1").

(** [isinstance(obj, str)] and [isinstance(obj, dict)] *)
Definition isinstance_str (obj : pyval) : bool :=
  match obj with PStr _ => true | _ => false end.

Definition isinstance_dict (obj : pyval) : bool :=
  match obj with PDict _ => true | _ => false end.

(** [generate_400_response()]: the call without its argument raises
    [TypeError]; the value is never applied to anything. *)
Definition generate_400_response_0 {A} : M A :=
  raise (TypeError
    "generate_400_response() missing 1 required positional argument: 'error'").

Definition opt_doc (d : option dict) : pyval :=
  match d with
  | Some d => PDict d
  | None => PNone
  end.

Section Handlers.

(** The constructors [Song], [Podcast] and [Audiobook] of module [audio]:
    from the attributes to the metadata of the new object, or to the
    exception the constructor raises. *)
Variable construct : AudioType -> pyval -> res dict.

(** A call [Song(audiometadata)], [Podcast(...)] or [Audiobook(...)]. *)
Definition new_object (t : AudioType) (audiometadata : pyval) : M audio :=
  fun w =>
    let w' := log_event (EvConstruct t audiometadata) w in
    match construct t audiometadata with
    | Ok d => (Ok {| kind := t; metadata := d |}, w')
    | Exc e => (Exc e, w')
    end.

(** [new_audio], lines 24-45, with [str.lower] of the runtime as the
    parameter [lower]. *)
Definition new_audio_with (lower : string -> string)
  (audiotype : string) (audiometadata : pyval) : M (option audio) :=
  try_except
    (let audiotype := lower audiotype in
     if audiotype =? "song" then
       file <- new_object Song audiometadata ;; ret (Some file)
     else if audiotype =? "podcast" then
       file <- new_object Podcast audiometadata ;; ret (Some file)
     else if audiotype =? "audiobook" then
       file <- new_object Audiobook audiometadata ;; ret (Some file)
     else ret None)%string
    (fun error =>
       match error with
       | MetadataValueError _ =>
           Some (raise (MetadataValueError (exn_str error)))
       | MetadataGenerationError _ =>
           Some (raise (MetadataGenerationError (exn_str error)))
       | _ => None
       end).

(** [new_audio] with the ASCII case mapping, as the handlers below use
    it. *)
Definition new_audio (audiotype : string) (audiometadata : pyval)
  : M (option audio) :=
  new_audio_with Str.lower audiotype audiometadata.

(** *** Create *)

(** Lines 69-83 of [Create.post].  [audiotype] is rebound before
    [new_audio] is called and [capitalize] raises none of the exceptions of
    the two clauses, so the clauses see the capitalized string. *)
Definition Create_build (audiotype audiometadata : pyval)
  : M (reply + (string * audio)) :=
  audiotype <- py_capitalize audiotype ;;
  try_except
    (audiofile <- new_audio audiotype audiometadata ;;
     match audiofile with
     | None =>
         return_ (generate_400_response
                    ("'" ++ py_str PNone ++ "' is not supported"), 400)
     | Some file => continue (audiotype, file)
     end)
    (fun error =>
       match error with
       | MetadataValueError _ =>
           Some (return_ (generate_400_response (exn_str error), 400))
       | MetadataGenerationError _ =>
           Some (return_ (generate_500_response
                            ("metadata generation for " ++ audiotype ++ " - "
                             ++ exn_str error), 500))
       | _ => None
       end).

(** Lines 85-92 of [Create.post]. *)
Definition Create_insert (audiotype : string) (audiofile : audio) : M reply :=
  insert_result <- Store.insert_one (metadata audiofile) ;;
  if negb (Store.result_acknowledged insert_result) then
    ret (generate_500_response "database insertion failed", 500)
  else
    ret ([("status", PInt 200); ("message", PStr "Creation Completed");
          ("result", PStr (audiotype ++ " file with ID "
                           ++ py_str (Store.inserted_id insert_result)
                           ++ " has been created"));
          ("document", Store.inserted_id insert_result)], 200).

(** [Create.post], lines 50-92; [data] is [request.get_json()]. *)
Definition Create_post (data : pyval) : M reply :=
  ' (audiotype, audiometadata) <~
    try_except
      (audiotype <- py_getitem data "audioFileType" ;;
       audiometadata <- py_getitem data "audioFileMetadata" ;;
       continue (audiotype, audiometadata))
      (fun key =>
         match key with
         | KeyError _ =>
             Some (return_ (generate_400_response
                              (exn_str key ++ " is required"), 400))
         | _ => None
         end) ;;
  is_str <- isinstance_1 audiotype ;;
  if negb is_str then
    ret (generate_400_response "'audioFileType' must be an string", 400)
  else
    is_dict <- isinstance_1 audiometadata ;;
    if negb is_dict then
      ret (generate_400_response "'audioFileMetadata' must be an dict", 400)
    else
      ' (audiotype, audiofile) <~ Create_build audiotype audiometadata ;;
      Create_insert audiotype audiofile.

(** *** Delete *)

(** [Delete.get], lines 96-115. *)
Definition Delete_get (audiotype : string) (audioID : Z) : M reply :=
  let audiotype := Str.capitalize audiotype in
  if negb (Str.mem (Str.lower audiotype) supported_types) then
    ret (generate_400_response ("'" ++ audiotype ++ "' is not supported"), 400)
  else
    delete_res <~
      try_except
        (let search_fil := [("type", PStr audiotype); ("_id", PInt audioID)] in
         delete_res <- Store.find_one_and_delete search_fil ;;
         continue delete_res)
        (fun error =>
           Some (return_ (generate_500_response
                            ("database query and delete failed - "
                             ++ exn_str error), 500))) ;;
    if negb (truthy_doc delete_res) then
      ret ([("status", PInt 200); ("message", PStr "Delete Completed");
            ("result", PStr "No document deleted")], 200)
    else
      id <- doc_getitem delete_res "_id" ;;
      ret ([("status", PInt 200); ("message", PStr "Delete Completed");
            ("result", PStr (audiotype ++ " file with ID " ++ py_str id));
            ("document", id)], 200).

(** *** Update *)

(** Lines 160-180 of [Update.post]: the replacement document. *)
Definition Update_build (audiotype : string) (audiometadata : pyval)
  (old_doc : option dict) : M (reply + dict) :=
  try_except
    (new_audiofile <- new_audio audiotype audiometadata ;;
     match new_audiofile with
     | None =>
         return_ (generate_400_response
                    ("'" ++ audiotype ++ "' is not supported"), 400)
     | Some file =>
         let new_document := metadata file in
         id <- doc_getitem old_doc "_id" ;;
         continue (dict_set "_id" id new_document)
     end)
    (fun error =>
       match error with
       | MetadataValueError _ =>
           Some (return_ (generate_400_response (exn_str error), 400))
       | MetadataGenerationError _ =>
           Some (return_ (generate_500_response
                            ("metadata generation for " ++ audiotype ++ " - "
                             ++ exn_str error), 500))
       | _ =>
           Some (return_ (generate_500_response
                            ("document update failed - " ++ exn_str error),
                          500))
       end).

(** [Update.post], lines 119-196; [data] is [request.get_json()]. *)
Definition Update_post (audiotype : string) (audioID : Z) (data : pyval)
  : M reply :=
  let audiotype := Str.capitalize audiotype in
  if negb (Str.mem (Str.lower audiotype) supported_types) then
    ret (generate_400_response ("'" ++ audiotype ++ "' is not supported"), 400)
  else
    ' (audiotyp_param, audiometadata) <~
      try_except
        (audiotyp_param <- py_getitem data "audioFileType" ;;
         audiometadata <- py_getitem data "audioFileMetadata" ;;
         continue (audiotyp_param, audiometadata))
        (fun key =>
           match key with
           | KeyError _ => Some generate_400_response_0
           | _ => None
           end) ;;
    if negb (isinstance_str audiotyp_param) then
      ret (generate_400_response "'audioFileType' must be an str", 400)
    else if negb (isinstance_dict audiometadata) then
      ret (generate_400_response "'audioFileMetadata' must be a dict", 400)
    else
      capitalized <- py_capitalize audiotyp_param ;;
      if negb (capitalized =? audiotype)%string then
        ret (generate_400_response "'audioFileType' must match endpoint", 400)
      else
        let search_filter :=
          [("type", PStr audiotype); ("_id", PInt audioID)] in
        old_doc <~
          try_except
            (old_doc <- Store.find_one search_filter ;; continue old_doc)
            (fun error =>
               Some (return_ (generate_500_response
                                ("database query failed - " ++ exn_str error),
                              500))) ;;
        if negb (truthy_doc old_doc) then
          ret (generate_400_response
                 ("No document found for ID - " ++ Str.of_Z audioID), 400)
        else
          new_document <~ Update_build audiotype audiometadata old_doc ;;
          pre_update_doc <~
            try_except
              (pre <- Store.find_one_and_replace search_filter new_document ;;
               continue pre)
              (fun error =>
                 Some (return_ (generate_500_response
                                  ("database query and replace failed - "
                                   ++ exn_str error), 500))) ;;
          ret ([("status", PInt 200); ("message", PStr "Update Complete");
                ("result", PStr (audiotype ++ " file with ID "
                                 ++ Str.of_Z audioID ++ " has been updated"));
                ("pre-update", opt_doc pre_update_doc);
                ("post-update", PDict new_document);
                ("document", PInt audioID)], 200).

(** *** Get *)

(** [Get.get], lines 200-228; [audioID] is [None] on the route without an
    identifier. *)
Definition Get_get (audiotype : string) (audioID : option Z) : M reply :=
  let audiotype := Str.capitalize audiotype in
  if negb (Str.mem (Str.lower audiotype) supported_types) then
    ret (generate_400_response ("'" ++ audiotype ++ "' is not supported"), 400)
  else
    result <~
      try_except
        (if truthy_int audioID then
           let search :=
             [("type", PStr audiotype);
              ("_id", match audioID with Some i => PInt i | None => PNone end)]
           in
           result <- Store.find_one search ;;
           continue (if truthy_doc result
                     then match result with Some d => [d] | None => [] end
                     else [])
         else
           let search := [("type", PStr audiotype)] in
           search_result <- Store.find_all search ;;
           continue search_result)
        (fun error =>
           Some (return_ (generate_500_response
                            ("database query failed - " ++ exn_str error),
                          500))) ;;
    ret ([("status", PInt 200); ("message", PStr "Get Complete");
          ("result", PStr (Str.of_Z (Z.of_nat (length result))
                           ++ " result(s) found"));
          ("documents", PList (map PDict result));
          ("matches", PInt (Z.of_nat (length result)))], 200).

End Handlers.

(** ** The handlers from their first line *)

(** [request.get_json()]: the parsed body, or the exception the framework
    raises when the body cannot be read as JSON. *)
Definition get_json (request : res pyval) : M pyval :=
  fun w => (request, w).

Section Requests.

Variable construct : AudioType -> pyval -> res dict.

(** [Create.post] with line 51: the body is read first, outside any
    [try]. *)
Definition Create_request (request : res pyval) : M reply :=
  data <- get_json request ;;
  Create_post construct data.

(** [Update.post] with line 126: the body is read after the check of the
    path (lines 120-124), outside any [try]; [Update_post] goes through the
    same check again, with the same result. *)
Definition Update_request (audiotype : string) (audioID : Z)
  (request : res pyval) : M reply :=
  let capitalized := Str.capitalize audiotype in
  if negb (Str.mem (Str.lower capitalized) supported_types) then
    ret (generate_400_response ("'" ++ capitalized ++ "' is not supported"),
         400)
  else
    data <- get_json request ;;
    Update_post construct audiotype audioID data.

End Requests.

(** ** Sample data *)

Definition type_name (t : AudioType) : string :=
  match t with
  | Song => "Song"
  | Podcast => "Podcast"
  | Audiobook => "Audiobook"
  end.

(** A generator for the examples: it wants a string [name], takes the
    identifier from the attributes and fails to generate without one. *)
Definition sample_construct (t : AudioType) (attributes : pyval) : res dict :=
  match attributes with
  | PDict d =>
      match dict_get "name" d with
      | Some (PStr n) =>
          match dict_get "_id" d with
          | Some (PInt i) =>
              Ok [("_id", PInt i); ("type", PStr (type_name t));
                  ("name", PStr n)]
          | _ => Exc (MetadataGenerationError "no identifier to derive")
          end
      | Some _ => Exc (MetadataValueError "name must be a string")
      | None => Exc (MetadataValueError "name is required")
      end
  | _ => Exc (MetadataValueError "metadata must be a dict")
  end.

Definition song (i : Z) (name : string) : dict :=
  [("_id", PInt i); ("type", PStr "Song"); ("name", PStr name)].

Definition podcast (i : Z) (name : string) (host : string) : dict :=
  [("_id", PInt i); ("type", PStr "Podcast"); ("name", PStr name);
   ("host", PStr host)].

Definition sample_world : world :=
  {| docs := [song 0 "Intro"; podcast 1 "Weekly" "Ann"; song 2 "Theme"];
     faults := []; acknowledged := true; next_oid := 100; log := [] |}.

Definition empty_world : world :=
  {| docs := []; faults := []; acknowledged := true; next_oid := 100;
     log := [] |}.

(** ** The type resolver in the words of the specification *)

(** The token is compared with the three names without regard to letter
    case; any other token resolves to nothing. *)
Definition resolve (token : string) : option AudioType :=
  if Str.eq_ignore_case token "song" then Some Song
  else if Str.eq_ignore_case token "podcast" then Some Podcast
  else if Str.eq_ignore_case token "audiobook" then Some Audiobook
  else None.

(** A path token is supported when it is one of the three names, in any
    letter case.  The handlers test the capitalized token
    ([audiotype.capitalize().lower()]); [StrFacts.path_check] shows that the
    two tests agree. *)
Definition supported (token : string) : Prop :=
  Str.mem (Str.lower token) supported_types = true.

(** The filter [{'type': ..., '_id': ...}] of Delete, Update and Get. *)
Definition type_id_filter (audiotype : string) (audioID : Z) : dict :=
  [("type", PStr audiotype); ("_id", PInt audioID)].

(** The driver lets the coming call through. *)
Definition no_fault (w : world) : Prop :=
  match faults w with
  | Some _ :: _ => False
  | _ => True
  end.

(** The reply of Delete when nothing matched (line 112). *)
Definition no_document_deleted : reply :=
  ([("status", PInt 200); ("message", PStr "Delete Completed");
    ("result", PStr "No document deleted")], 200).

(** The reply of Get for a list of documents (lines 222-228). *)
Definition get_complete (result : list dict) : reply :=
  ([("status", PInt 200); ("message", PStr "Get Complete");
    ("result", PStr (Str.of_Z (Z.of_nat (length result)) ++ " result(s) found"));
    ("documents", PList (map PDict result));
    ("matches", PInt (Z.of_nat (length result)))], 200).

(** The reply of a completed Update (lines 189-196). *)
Definition update_complete (audiotype : string) (audioID : Z)
  (pre_update_doc : option dict) (new_document : dict) : reply :=
  ([("status", PInt 200); ("message", PStr "Update Complete");
    ("result", PStr (audiotype ++ " file with ID " ++ Str.of_Z audioID
                     ++ " has been updated"));
    ("pre-update", opt_doc pre_update_doc);
    ("post-update", PDict new_document);
    ("document", PInt audioID)], 200).

(** A body of Update that passes the checks of lines 126-146 for a path:
    a dict with a string [audioFileType] that is the type of the path up
    to letter case, and a dict [audioFileMetadata]. *)
Definition update_body (path : string) (data : pyval) (md : dict) : Prop :=
  exists d a,
    data = PDict d
    /\ dict_get "audioFileType" d = Some (PStr a)
    /\ dict_get "audioFileMetadata" d = Some (PDict md)
    /\ Str.lower a = Str.lower path.

(** Sample bodies. *)
Definition body_of (audioFileType : string) (audioFileMetadata : dict) : pyval :=
  PDict [("audioFileType", PStr audioFileType);
         ("audioFileMetadata", PDict audioFileMetadata)].

Definition body_without_metadata (audioFileType : string) : pyval :=
  PDict [("audioFileType", PStr audioFileType)].

(** The shape of what a handler gives back: a reply whose [status] field
    is the status returned with it, one of 200, 400 and 500, or an escaping
    [TypeError]. *)
Definition enveloped (r : res reply) : Prop :=
  match r with
  | Ok (body, code) =>
      dict_get "status" body = Some (PInt code)
      /\ (code = 200 \/ code = 400 \/ code = 500)
  | Exc e => exists msg, e = TypeError msg
  end.

(** The sample collection behind a driver with the given faults to come. *)
Definition world_with_faults (fs : list (option string)) : world :=
  {| docs := docs sample_world; faults := fs; acknowledged := true;
     next_oid := 100; log := [] |}.

(** A generator that fails outside its two kinds of error. *)
Definition broken_construct (t : AudioType) (attributes : pyval) : res dict :=
  Exc (OtherError "unexpected").

(** The names of the three types as [new_audio] compares them. *)
Definition type_token (t : AudioType) : string :=
  match t with
  | Song => "song"
  | Podcast => "podcast"
  | Audiobook => "audiobook"
  end.

(** On ASCII text the case mapping of the runtime is the ASCII one. *)
Definition ascii_faithful (lower : string -> string) : Prop :=
  forall s, Str.is_ascii s = true -> lower s = Str.lower s.

(** [enveloped] for a handler that reads its body itself: the exception
    that escapes may also be the one [get_json] raised. *)
Definition enveloped_from (request : res pyval) (r : res reply) : Prop :=
  match r with
  | Ok (body, code) =>
      dict_get "status" body = Some (PInt code)
      /\ (code = 200 \/ code = 400 \/ code = 500)
  | Exc e => (exists msg, e = TypeError msg) \/ request = Exc e
  end.

(** * Properties *)

(** ** Case mappings *)

Module StrFacts.
Import Str.

Lemma lower_char_idem (c : ascii) : lower_char (lower_char c) = lower_char c.
Proof. destruct c as [[] [] [] [] [] [] [] []]; reflexivity. Qed.

Lemma lower_upper_char (c : ascii) : lower_char (upper_char c) = lower_char c.
Proof. destruct c as [[] [] [] [] [] [] [] []]; reflexivity. Qed.

Lemma upper_lower_char (c : ascii) : upper_char (lower_char c) = upper_char c.
Proof. destruct c as [[] [] [] [] [] [] [] []]; reflexivity. Qed.

Lemma lower_idem (s : string) : lower (lower s) = lower s.
Proof.
  induction s as [|c s IH]; simpl; [reflexivity|].
  now rewrite lower_char_idem, IH.
Qed.

Lemma lower_capitalize (s : string) : lower (capitalize s) = lower s.
Proof.
  destruct s as [|c s]; simpl; [reflexivity|].
  now rewrite lower_upper_char, lower_idem.
Qed.

Lemma lower_upper (s : string) : lower (upper s) = lower s.
Proof.
  induction s as [|c s IH]; simpl; [reflexivity|].
  now rewrite lower_upper_char, IH.
Qed.

Lemma upper_char_eq_iff (c d : ascii) :
  upper_char c = upper_char d <-> lower_char c = lower_char d.
Proof.
  split; intros H.
  - rewrite <- (lower_upper_char c), <- (lower_upper_char d). now rewrite H.
  - rewrite <- (upper_lower_char c), <- (upper_lower_char d). now rewrite H.
Qed.

(** Two strings have the same capitalized form exactly when they have the
    same lower-case form. *)
Lemma capitalize_eq_iff (s t : string) :
  capitalize s = capitalize t <-> lower s = lower t.
Proof.
  destruct s as [|c s], t as [|d t]; simpl; try (split; congruence).
  split; intros H; injection H as Hc Hr.
  - apply upper_char_eq_iff in Hc. now rewrite Hc, Hr.
  - apply upper_char_eq_iff in Hc. now rewrite Hc, Hr.
Qed.

Lemma eq_ignore_case_iff (s t : string) :
  eq_ignore_case s t = true <-> lower s = lower t.
Proof.
  revert t; induction s as [|c s IH]; intros [|d t]; simpl;
    try (split; congruence).
  unfold same_letter. rewrite andb_true_iff, Ascii.eqb_eq, IH.
  split; [intros [-> ->]; reflexivity | intros H; injection H; auto].
Qed.

Lemma eq_ignore_case_lower (s t : string) :
  lower t = t -> eq_ignore_case s t = (lower s =? t)%string.
Proof.
  intros Ht.
  destruct (String.eqb_spec (lower s) t) as [E|E].
  - apply eq_ignore_case_iff. congruence.
  - destruct (eq_ignore_case s t) eqn:H; [|reflexivity].
    apply eq_ignore_case_iff in H. congruence.
Qed.

(** The check of the three handlers, [audiotype.capitalize().lower() in
    [...]], is the check on the token itself. *)
Lemma path_check (token : string) :
  mem (lower (capitalize token)) supported_types
  = mem (lower token) supported_types.
Proof. now rewrite lower_capitalize. Qed.

Lemma is_ascii_lower_char (c : ascii) :
  is_ascii_char (lower_char c) = is_ascii_char c.
Proof. destruct c as [[] [] [] [] [] [] [] []]; reflexivity. Qed.

(** A string that is an ASCII string up to letter case is an ASCII
    string. *)
Lemma eq_ignore_case_ascii (s t : string) :
  eq_ignore_case s t = true -> is_ascii t = true -> is_ascii s = true.
Proof.
  revert t; induction s as [|c s IH]; intros [|d t]; simpl;
    try discriminate; [reflexivity|].
  unfold same_letter. rewrite !andb_true_iff, Ascii.eqb_eq.
  intros [Hc Hs] [Hd Ht]. split; [|now apply (IH t)].
  now rewrite <- is_ascii_lower_char, Hc, is_ascii_lower_char.
Qed.

End StrFacts.

(** ** [new_audio] *)

Section NewAudio.

Variable construct : AudioType -> pyval -> res dict.

(** The two clauses of [new_audio] raise again what they caught, with the
    same text: around a constructor call the [try] changes nothing. *)
Lemma try_new_object (t : AudioType) (md : pyval) (w : world) :
  try_except
    (file <- new_object construct t md ;; ret (Some file))
    (fun error =>
       match error with
       | MetadataValueError _ =>
           Some (raise (MetadataValueError (exn_str error)))
       | MetadataGenerationError _ =>
           Some (raise (MetadataGenerationError (exn_str error)))
       | _ => None
       end) w
  = (file <- new_object construct t md ;; ret (Some file)) w.
Proof.
  unfold try_except, bind, new_object.
  destruct (construct t md) as [d|e]; simpl; [reflexivity|].
  destruct e; reflexivity.
Qed.

Lemma new_audio_resolve (s : string) (md : pyval) (w : world) :
  new_audio construct s md w
  = match resolve s with
    | Some t => (file <- new_object construct t md ;; ret (Some file)) w
    | None => (Ok None, w)
    end.
Proof.
  unfold new_audio, new_audio_with, resolve.
  rewrite !StrFacts.eq_ignore_case_lower by reflexivity.
  destruct (Str.lower s =? "song")%string; [apply try_new_object|].
  destruct (Str.lower s =? "podcast")%string; [apply try_new_object|].
  destruct (Str.lower s =? "audiobook")%string; [apply try_new_object|].
  reflexivity.
Qed.

(** What a constructor call gives: the object of the class with the
    generated metadata, or the exception of the generator; the call is
    logged and nothing else changes. *)
Lemma new_object_run (t : AudioType) (md : pyval) (w : world) :
  exists w',
    docs w' = docs w /\ faults w' = faults w
    /\ log w' = (log w ++ [EvConstruct t md])%list
    /\ new_object construct t md w
       = (match construct t md with
          | Ok d => Ok {| kind := t; metadata := d |}
          | Exc e => Exc e
          end, w').
Proof.
  unfold new_object. exists (log_event (EvConstruct t md) w).
  repeat split. destruct (construct t md); reflexivity.
Qed.

End NewAudio.

Lemma resolve_lower (s : string) :
  (resolve s = Some Song <-> Str.lower s = "song")
  /\ (resolve s = Some Podcast <-> Str.lower s = "podcast")
  /\ (resolve s = Some Audiobook <-> Str.lower s = "audiobook")
  /\ (resolve s = None <-> ~ In (Str.lower s) supported_types).
Proof.
  unfold resolve, supported_types.
  rewrite !StrFacts.eq_ignore_case_lower by reflexivity.
  destruct (String.eqb_spec (Str.lower s) "song") as [E1|E1];
    [rewrite E1; simpl; intuition congruence|].
  destruct (String.eqb_spec (Str.lower s) "podcast") as [E2|E2];
    [rewrite E2; simpl; intuition congruence|].
  destruct (String.eqb_spec (Str.lower s) "audiobook") as [E3|E3];
    [rewrite E3; simpl; intuition congruence|].
  simpl; intuition congruence.
Qed.

Lemma resolve_case (s t : string) :
  Str.lower s = Str.lower t -> resolve s = resolve t.
Proof.
  intros H. unfold resolve.
  rewrite !StrFacts.eq_ignore_case_lower by reflexivity. now rewrite H.
Qed.

Lemma supported_resolve (s : string) :
  supported s <-> exists t, resolve s = Some t.
Proof.
  unfold supported, resolve, Str.mem, supported_types.
  rewrite !StrFacts.eq_ignore_case_lower by reflexivity. simpl.
  destruct (Str.lower s =? "song")%string; simpl; [split; eauto|].
  destruct (Str.lower s =? "podcast")%string; simpl; [split; eauto|].
  destruct (Str.lower s =? "audiobook")%string; simpl; [split; eauto|].
  split; [discriminate | intros [t H]; discriminate].
Qed.

Section NewAudioWith.

Variable construct : AudioType -> pyval -> res dict.
Variable lower : string -> string.

(** [new_audio] by the lower-case form of its first argument, whatever the
    case mapping. *)
Lemma new_audio_with_run (s : string) (md : pyval) (w : world) :
  new_audio_with construct lower s md w
  = if (lower s =? "song")%string then
      (file <- new_object construct Song md ;; ret (Some file)) w
    else if (lower s =? "podcast")%string then
      (file <- new_object construct Podcast md ;; ret (Some file)) w
    else if (lower s =? "audiobook")%string then
      (file <- new_object construct Audiobook md ;; ret (Some file)) w
    else (Ok None, w).
Proof.
  unfold new_audio_with.
  destruct (lower s =? "song")%string; [apply try_new_object|].
  destruct (lower s =? "podcast")%string; [apply try_new_object|].
  destruct (lower s =? "audiobook")%string; [apply try_new_object|].
  reflexivity.
Qed.

Lemma new_object_some (t : AudioType) (md : pyval) (w w' : world)
  (r : option audio) :
  (file <- new_object construct t md ;; ret (Some file)) w = (Ok r, w') ->
  exists a, r = Some a /\ kind a = t.
Proof.
  unfold bind, new_object.
  destruct (construct t md) as [d|e]; simpl; intros H; [|discriminate].
  injection H as <- _. eexists. split; reflexivity.
Qed.

End NewAudioWith.

(** C3.  Whatever the string, and with [str.lower] of the runtime as
    [lower]: [new_audio] calls the constructor [Song], [Podcast] or
    [Audiobook] when the string lower-cases to [song], [podcast] or
    [audiobook], and only then; it returns [None], without calling any
    constructor, for every other string, and only then.  Any letter case of
    the three names is accepted, since on ASCII text [str.lower] is the
    ASCII mapping. *)
Theorem new_audio_resolves
  (construct : AudioType -> pyval -> res dict) (lower : string -> string)
  (s : string) (md : pyval) (w : world) :
  (forall t, lower s = type_token t ->
     new_audio_with construct lower s md w
     = (file <- new_object construct t md ;; ret (Some file)) w)
  /\ (~ In (lower s) supported_types ->
      new_audio_with construct lower s md w = (Ok None, w))
  /\ (forall a w', new_audio_with construct lower s md w = (Ok (Some a), w') ->
        lower s = type_token (kind a))
  /\ (forall w', new_audio_with construct lower s md w = (Ok None, w') ->
        ~ In (lower s) supported_types /\ w' = w)
  /\ (ascii_faithful lower ->
      forall t, Str.eq_ignore_case s (type_token t) = true ->
                lower s = type_token t).
Proof.
  rewrite new_audio_with_run.
  split.
  { intros t Ht. rewrite Ht. destruct t; reflexivity. }
  split.
  { intros Hn. unfold supported_types in Hn. simpl in Hn.
    destruct (String.eqb_spec (lower s) "song"); [intuition congruence|].
    destruct (String.eqb_spec (lower s) "podcast"); [intuition congruence|].
    destruct (String.eqb_spec (lower s) "audiobook"); [intuition congruence|].
    reflexivity. }
  split.
  { intros a w' H.
    destruct (String.eqb_spec (lower s) "song") as [E1|E1].
    { apply new_object_some in H as (a0 & Ha & Hk).
      injection Ha as <-. now rewrite Hk. }
    destruct (String.eqb_spec (lower s) "podcast") as [E2|E2].
    { apply new_object_some in H as (a0 & Ha & Hk).
      injection Ha as <-. now rewrite Hk. }
    destruct (String.eqb_spec (lower s) "audiobook") as [E3|E3].
    { apply new_object_some in H as (a0 & Ha & Hk).
      injection Ha as <-. now rewrite Hk. }
    discriminate. }
  split.
  { intros w' H. unfold supported_types. simpl.
    destruct (String.eqb_spec (lower s) "song") as [E1|E1].
    { apply new_object_some in H as (a0 & Ha & _). discriminate. }
    destruct (String.eqb_spec (lower s) "podcast") as [E2|E2].
    { apply new_object_some in H as (a0 & Ha & _). discriminate. }
    destruct (String.eqb_spec (lower s) "audiobook") as [E3|E3].
    { apply new_object_some in H as (a0 & Ha & _). discriminate. }
    injection H as <-. split; [intuition congruence | reflexivity]. }
  intros Hlower t Ht.
  assert (Hascii : Str.is_ascii s = true).
  { apply (StrFacts.eq_ignore_case_ascii s (type_token t) Ht).
    destruct t; reflexivity. }
  rewrite (Hlower s Hascii).
  apply StrFacts.eq_ignore_case_iff in Ht. rewrite Ht.
  destruct t; reflexivity.
Qed.

Lemma new_audio_resolves_witness :
  ascii_faithful Str.lower
  /\ Str.lower "PodCAST" = "podcast"%string
  /\ new_audio_with sample_construct Str.lower "vIdEo" (PDict []) empty_world
     = (Ok None, empty_world)
  /\ fst (new_audio_with sample_construct Str.lower "PodCAST"
            (PDict [("name", PStr "Weekly"); ("_id", PInt 4)]) empty_world)
     = Ok (Some {| kind := Podcast;
                   metadata := [("_id", PInt 4); ("type", PStr "Podcast");
                                ("name", PStr "Weekly")] |}).
Proof.
  assert (Hf : ascii_faithful Str.lower) by (intros s _; reflexivity).
  split; [exact Hf|].
  assert (Hl : Str.lower "PodCAST" = type_token Podcast).
  { exact (proj2 (proj2 (proj2 (proj2
             (new_audio_resolves sample_construct Str.lower "PodCAST"
                (PDict []) empty_world)))) Hf Podcast eq_refl). }
  split; [exact Hl|]. split.
  - apply (proj1 (proj2 (new_audio_resolves sample_construct Str.lower "vIdEo"
                           (PDict []) empty_world))).
    intros [H|[H|[H|[]]]]; discriminate H.
  - exact (f_equal fst
             (proj1 (new_audio_resolves sample_construct Str.lower "PodCAST"
                       (PDict [("name", PStr "Weekly"); ("_id", PInt 4)])
                       empty_world) Podcast Hl)).
Defined.

(** ** The store *)

Local Open Scope list_scope.

Module StoreFacts.
Import Store.

Lemma call_ok {A} (ev : event) (op : world -> res A * world) (w : world) :
  no_fault w -> call ev op w = op (called ev w).
Proof.
  unfold no_fault, call. destruct (faults w) as [|[d|] fs]; tauto.
Qed.

Lemma call_fault {A} (ev : event) (op : world -> res A * world) (w : world)
  (detail : string) (fs : list (option string)) :
  faults w = Some detail :: fs ->
  call ev op w = (Exc (StoreError detail), called ev w).
Proof. unfold call. now intros ->. Qed.

(** A call either raises a store error or runs its operation, and is
    logged in both cases. *)
Lemma call_cases {A} (ev : event) (op : world -> res A * world) (w : world) :
  (no_fault w /\ call ev op w = op (called ev w))
  \/ (exists detail,
        call ev op w = (Exc (StoreError detail), called ev w)).
Proof.
  unfold no_fault, call. destruct (faults w) as [|[d|] fs]; eauto.
Qed.

Lemma bson_eqb_int (v : pyval) (i : Z) : bson_eqb v (PInt i) = true -> v = PInt i.
Proof.
  destruct v; simpl; try discriminate. intros H. apply Z.eqb_eq in H. congruence.
Qed.

Lemma bson_eqb_str (v : pyval) (s : string) :
  bson_eqb v (PStr s) = true -> v = PStr s.
Proof.
  destruct v; simpl; try discriminate. intros H.
  apply String.eqb_eq in H. congruence.
Qed.

(** A document that matches the filter of type and identifier has both
    fields, with the values of the filter. *)
Lemma matches_type_id (ty : string) (id : Z) (d : dict) :
  matches (type_id_filter ty id) d = true <->
  dict_get "type" d = Some (PStr ty) /\ dict_get "_id" d = Some (PInt id).
Proof.
  unfold matches, type_id_filter; simpl. rewrite !andb_true_iff. split.
  - intros (H1 & H2 & _).
    destruct (dict_get "type" d) as [v1|]; [|discriminate].
    destruct (dict_get "_id" d) as [v2|]; [|discriminate].
    apply bson_eqb_str in H1. apply bson_eqb_int in H2. now subst.
  - intros [-> ->]. simpl. now rewrite String.eqb_refl, Z.eqb_refl.
Qed.

Lemma matches_type (ty : string) (d : dict) :
  matches [("type", PStr ty)] d = true <-> dict_get "type" d = Some (PStr ty).
Proof.
  unfold matches; simpl. rewrite andb_true_iff. split.
  - intros [H _]. destruct (dict_get "type" d) as [v|]; [|discriminate].
    apply bson_eqb_str in H. now subst.
  - intros ->. simpl. now rewrite String.eqb_refl.
Qed.

(** A document some filter with a field matches is not the empty dict. *)
Lemma matches_truthy (ty : string) (id : Z) (d : dict) :
  matches (type_id_filter ty id) d = true -> truthy_doc (Some d) = true.
Proof.
  intros H. apply matches_type_id in H as [H _].
  destruct d; [discriminate | reflexivity].
Qed.

Lemma find_truthy (ty : string) (id : Z) (ds : list dict) :
  truthy_doc (find (matches (type_id_filter ty id)) ds)
  = match find (matches (type_id_filter ty id)) ds with
    | Some _ => true
    | None => false
    end.
Proof.
  destruct (find _ ds) as [d|] eqn:E; [|reflexivity].
  apply find_some in E as [_ E]. now apply matches_truthy in E.
Qed.

(** Where the first match of a filter stands in the collection. *)
Lemma find_first (flt : dict) (ds : list dict) (d : dict) :
  find (matches flt) ds = Some d ->
  exists before after,
    ds = before ++ d :: after
    /\ matches flt d = true
    /\ Forall (fun x => matches flt x = false) before
    /\ (forall new, replace_first flt new ds = before ++ new :: after)
    /\ remove_first flt ds = before ++ after.
Proof.
  induction ds as [|x ds IH]; simpl; [discriminate|].
  destruct (matches flt x) eqn:E.
  - intros H; injection H as ->. exists [], ds. simpl. auto.
  - intros H. destruct (IH H) as (b & a & -> & Hm & Hb & Hr & Hd).
    exists (x :: b), a. simpl. repeat split; auto.
    + intros new. now rewrite Hr.
    + now rewrite Hd.
Qed.

Lemma find_none_unchanged (flt : dict) (ds : list dict) :
  find (matches flt) ds = None ->
  remove_first flt ds = ds /\ (forall new, replace_first flt new ds = ds).
Proof.
  induction ds as [|x ds IH]; simpl; [auto|].
  destruct (matches flt x); [discriminate|].
  intros H. destruct (IH H) as [H1 H2]. split; [now rewrite H1|].
  intros new. now rewrite H2.
Qed.

(** What an answer of the store to a lookup, or to a find-and-delete,
    tells: the call raised no fault, and the answer is the first match. *)
Lemma find_one_inv (flt : dict) (w w1 : world) (r : option dict) :
  find_one flt w = (Ok r, w1) ->
  no_fault w
  /\ r = find (matches flt) (docs w)
  /\ w1 = called (EvFindOne flt) w.
Proof.
  unfold find_one, call, no_fault.
  destruct (faults w) as [|[detail|] fs]; intros H; try discriminate;
    injection H as <- <-; auto.
Qed.

Lemma find_one_and_delete_inv (flt : dict) (w w1 : world) (r : option dict) :
  find_one_and_delete flt w = (Ok r, w1) ->
  no_fault w
  /\ r = find (matches flt) (docs w)
  /\ w1 = with_docs (called (EvFindOneAndDelete flt) w)
            (remove_first flt (docs w)).
Proof.
  unfold find_one_and_delete, call, no_fault.
  destruct (faults w) as [|[detail|] fs]; intros H; try discriminate;
    injection H as <- <-; auto.
Qed.

End StoreFacts.

Lemma supported_check (token : string) :
  supported token ->
  negb (Str.mem (Str.lower (Str.capitalize token)) supported_types) = false.
Proof. unfold supported. rewrite StrFacts.path_check. now intros ->. Qed.

(** ** Delete *)

Lemma Delete_get_found (path : string) (id : Z) (w : world) (d : dict) :
  supported path -> no_fault w ->
  find (Store.matches (type_id_filter (Str.capitalize path) id)) (docs w)
  = Some d ->
  Delete_get path id w
  = (Ok ([("status", PInt 200); ("message", PStr "Delete Completed");
          ("result", PStr (Str.capitalize path ++ " file with ID "
                           ++ Str.of_Z id)%string);
          ("document", PInt id)], 200),
     Store.with_docs
       (Store.called
          (EvFindOneAndDelete (type_id_filter (Str.capitalize path) id)) w)
       (Store.remove_first (type_id_filter (Str.capitalize path) id) (docs w))).
Proof.
  intros Hs Hf Hd. unfold Delete_get.
  rewrite (supported_check _ Hs).
  unfold bind_block, bind, try_except, Store.find_one_and_delete.
  rewrite (StoreFacts.call_ok _ _ _ Hf). cbn [Store.called docs].
  fold (type_id_filter (Str.capitalize path) id).
  rewrite Hd. cbn [continue ret].
  pose proof (find_some _ _ Hd) as [_ Hm].
  rewrite (StoreFacts.matches_truthy _ _ _ Hm). cbn [negb].
  apply StoreFacts.matches_type_id in Hm as [_ Hid].
  unfold doc_getitem, py_getitem. rewrite Hid. reflexivity.
Qed.

Lemma Delete_get_not_found (path : string) (id : Z) (w : world) :
  supported path -> no_fault w ->
  find (Store.matches (type_id_filter (Str.capitalize path) id)) (docs w)
  = None ->
  Delete_get path id w
  = (Ok no_document_deleted,
     Store.called
       (EvFindOneAndDelete (type_id_filter (Str.capitalize path) id)) w).
Proof.
  intros Hs Hf Hd. unfold Delete_get.
  rewrite (supported_check _ Hs).
  unfold bind_block, bind, try_except, Store.find_one_and_delete.
  rewrite (StoreFacts.call_ok _ _ _ Hf). cbn [Store.called docs].
  fold (type_id_filter (Str.capitalize path) id).
  rewrite Hd. cbn [continue ret truthy_doc negb].
  destruct (StoreFacts.find_none_unchanged _ _ Hd) as [-> _].
  unfold Store.with_docs, Store.called; cbn. reflexivity.
Qed.

(** Without a fault of the store, Delete answers 200 whatever the
    collection holds. *)
Lemma Delete_get_never_fails (path : string) (id : Z) (w : world) :
  supported path -> no_fault w ->
  exists body w',
    Delete_get path id w = (Ok (body, 200), w')
    /\ dict_get "status" body = Some (PInt 200).
Proof.
  intros Hs Hf.
  destruct (find (Store.matches (type_id_filter (Str.capitalize path) id))
              (docs w)) as [d|] eqn:Hd.
  - rewrite (Delete_get_found _ _ _ _ Hs Hf Hd). eauto.
  - rewrite (Delete_get_not_found _ _ _ Hs Hf Hd).
    unfold no_document_deleted. eauto.
Qed.

(** C8.  A Delete with a supported type, when the store answers the
    find-and-delete of the type and identifier with no document: the reply
    is a 200 with the result [No document deleted] and no error, and the
    collection is as it was.  The same request made again, if the store
    answers it, gets the same reply and leaves the same collection. *)
Theorem Delete_nothing_to_delete (path : string) (id : Z) (w w1 : world) :
  supported path ->
  Store.find_one_and_delete (type_id_filter (Str.capitalize path) id) w
  = (Ok None, w1) ->
  Delete_get path id w = (Ok no_document_deleted, w1)
  /\ snd no_document_deleted = 200
  /\ dict_get "status" (fst no_document_deleted) = Some (PInt 200)
  /\ dict_get "result" (fst no_document_deleted)
     = Some (PStr "No document deleted")
  /\ dict_get "error" (fst no_document_deleted) = None
  /\ docs w1 = docs w
  /\ (forall r2 w2,
         Store.find_one_and_delete (type_id_filter (Str.capitalize path) id) w1
         = (Ok r2, w2) ->
         Delete_get path id w1 = (Ok no_document_deleted, w2)
         /\ docs w2 = docs w).
Proof.
  intros Hs Hcall.
  apply StoreFacts.find_one_and_delete_inv in Hcall as (Hf & Hd & ->).
  symmetry in Hd.
  destruct (StoreFacts.find_none_unchanged _ _ Hd) as [Hrem _].
  rewrite Hrem.
  split; [apply (Delete_get_not_found _ _ _ Hs Hf Hd)|].
  repeat (split; [reflexivity|]).
  intros r2 w2 Hcall2.
  apply StoreFacts.find_one_and_delete_inv in Hcall2 as (Hf2 & _ & ->).
  cbn [docs Store.with_docs Store.called]. rewrite Hrem.
  split; [|reflexivity].
  apply (Delete_get_not_found _ _ _ Hs Hf2). exact Hd.
Qed.

Lemma Delete_nothing_to_delete_witness :
  supported "SONG"
  /\ exists w1,
       Store.find_one_and_delete (type_id_filter "Song" 5) sample_world
       = (Ok None, w1)
       /\ Delete_get "SONG" 5 sample_world = (Ok no_document_deleted, w1)
       /\ docs w1 = docs sample_world.
Proof.
  assert (Hs : supported "SONG") by reflexivity.
  split; [exact Hs|].
  exists (Store.called (EvFindOneAndDelete (type_id_filter "Song" 5))
            sample_world).
  assert (Hcall :
    Store.find_one_and_delete (type_id_filter (Str.capitalize "SONG") 5)
      sample_world
    = (Ok None,
       Store.called (EvFindOneAndDelete (type_id_filter "Song" 5))
         sample_world)) by reflexivity.
  split; [exact Hcall|].
  destruct (Delete_nothing_to_delete "SONG" 5 sample_world _ Hs Hcall)
    as (H & _ & _ & _ & _ & Hd & _).
  split; assumption.
Defined.

(** ** Get *)

(** What Get puts in its list: the document of the identifier, if there is
    one, when the identifier is given and not zero; every document of the
    type otherwise. *)
Lemma Get_get_run (path : string) (audioID : option Z) (w : world) :
  supported path -> no_fault w ->
  exists result,
    Get_get path audioID w
    = (Ok (get_complete result),
       Store.called
         (if truthy_int audioID
          then EvFindOne
                 [("type", PStr (Str.capitalize path));
                  ("_id", match audioID with
                          | Some i => PInt i
                          | None => PNone
                          end)]
          else EvFind [("type", PStr (Str.capitalize path))]) w)
    /\ result
       = if truthy_int audioID
         then match audioID with
              | Some i =>
                  match find (Store.matches
                                (type_id_filter (Str.capitalize path) i))
                          (docs w) with
                  | Some d => [d]
                  | None => []
                  end
              | None => []
              end
         else filter (Store.matches [("type", PStr (Str.capitalize path))])
                (docs w).
Proof.
  intros Hs Hf. unfold Get_get.
  rewrite (supported_check _ Hs).
  unfold bind_block, bind, try_except.
  destruct (truthy_int audioID) eqn:Ht.
  - destruct audioID as [i|]; [|discriminate].
    unfold Store.find_one. rewrite (StoreFacts.call_ok _ _ _ Hf).
    cbn [Store.called docs continue ret].
    fold (type_id_filter (Str.capitalize path) i).
    rewrite StoreFacts.find_truthy.
    destruct (find _ (docs w)) as [d|]; eexists; split; reflexivity.
  - unfold Store.find_all. rewrite (StoreFacts.call_ok _ _ _ Hf).
    cbn [Store.called docs continue ret].
    eexists; split; reflexivity.
Qed.

(** C9.  A Get with a supported type, on a store that raises no fault,
    answers 200 with a list [documents] and a field [matches] that is the
    length of the list; without an identifier the list is made of all the
    documents of the type, and an empty list gives [matches] 0, still with
    status 200. *)
Theorem Get_counts_documents (path : string) (audioID : option Z) (w : world) :
  supported path ->
  no_fault w ->
  exists result body w',
    Get_get path audioID w = (Ok (body, 200), w')
    /\ docs w' = docs w
    /\ dict_get "status" body = Some (PInt 200)
    /\ dict_get "documents" body = Some (PList (map PDict result))
    /\ dict_get "matches" body = Some (PInt (Z.of_nat (length result)))
    /\ dict_get "error" body = None
    /\ (audioID = None ->
        result = filter (Store.matches [("type", PStr (Str.capitalize path))])
                   (docs w)
        /\ forall d, In d result <->
                     In d (docs w)
                     /\ dict_get "type" d = Some (PStr (Str.capitalize path)))
    /\ (result = [] -> dict_get "matches" body = Some (PInt 0)).
Proof.
  intros Hs Hf.
  destruct (Get_get_run path audioID w Hs Hf) as (result & Hrun & Hres).
  exists result. unfold get_complete in Hrun.
  eexists. eexists. split; [exact Hrun|].
  repeat (split; [reflexivity|]).
  split.
  - intros ->. cbn in Hres. split; [exact Hres|].
    intros d. rewrite Hres, filter_In, StoreFacts.matches_type. reflexivity.
  - intros ->. reflexivity.
Qed.

Lemma Get_counts_documents_witness :
  supported "Podcast" /\ no_fault sample_world
  /\ exists result body w',
       Get_get "Podcast" None sample_world = (Ok (body, 200), w')
       /\ dict_get "matches" body = Some (PInt (Z.of_nat (length result)))
       /\ dict_get "documents" body = Some (PList (map PDict result)).
Proof.
  assert (Hs : supported "Podcast") by reflexivity.
  assert (Hf : no_fault sample_world) by exact I.
  split; [exact Hs|]. split; [exact Hf|].
  destruct (Get_counts_documents "Podcast" None sample_world Hs Hf)
    as (result & body & w' & H & _ & _ & Hdocs & Hm & _).
  exists result, body, w'. repeat split; assumption.
Defined.

(** C10.  A Get with the identifier 0 is the Get without an identifier:
    the test [if audioID:] is false for 0, so the query is the one on the
    type alone.  In [sample_world] the song stored under [_id] 0 is there,
    and the request for it gets the two songs. *)
Theorem Get_identifier_zero (path : string) (w : world) :
  Get_get path (Some 0) w = Get_get path None w
  /\ find (Store.matches (type_id_filter "Song" 0)) (docs sample_world)
     = Some (song 0 "Intro")
  /\ fst (Get_get "song" (Some 0) sample_world)
     = Ok (get_complete [song 0 "Intro"; song 2 "Theme"])
  /\ fst (Get_get "song" (Some 2) sample_world)
     = Ok (get_complete [song 2 "Theme"])
  /\ log (snd (Get_get "song" (Some 0) sample_world))
     = [EvFind [("type", PStr "Song")]].
Proof. repeat split; reflexivity. Qed.

(** ** Update *)

Section UpdateFacts.

Variable construct : AudioType -> pyval -> res dict.

(** The reply of the block that builds the replacement, for each outcome
    of the generator. *)
Lemma Update_build_run (path : string) (t : AudioType) (md : pyval)
  (old : dict) (v : pyval) (w : world) :
  resolve path = Some t ->
  dict_get "_id" old = Some v ->
  Update_build construct (Str.capitalize path) md (Some old) w
  = (match construct t md with
     | Ok fields => Ok (inr (dict_set "_id" v fields))
     | Exc (MetadataValueError detail) =>
         Ok (inl (generate_400_response detail, 400))
     | Exc (MetadataGenerationError detail) =>
         Ok (inl (generate_500_response
                    ("metadata generation for " ++ Str.capitalize path
                     ++ " - " ++ detail)%string, 500))
     | Exc e =>
         Ok (inl (generate_500_response
                    ("document update failed - " ++ exn_str e)%string, 500))
     end, log_event (EvConstruct t md) w).
Proof.
  intros Ht Hv. unfold Update_build, try_except, bind.
  rewrite new_audio_resolve.
  rewrite (resolve_case _ path (StrFacts.lower_capitalize path)), Ht.
  unfold bind, new_object.
  destruct (construct t md) as [fields|e]; cbn.
  - rewrite Hv. reflexivity.
  - destruct e; reflexivity.
Qed.

(** An unsupported path is refused before the body is read. *)
Lemma Update_post_unsupported (path : string) (id : Z) (data : pyval)
  (w : world) :
  ~ supported path ->
  Update_post construct path id data w
  = (Ok (generate_400_response
           ("'" ++ Str.capitalize path ++ "' is not supported")%string, 400),
     w).
Proof.
  intros Hs. unfold Update_post.
  rewrite StrFacts.path_check.
  unfold supported in Hs.
  destruct (Str.mem (Str.lower path) supported_types); [tauto | reflexivity].
Qed.

(** A body without one of the two keys: the clause for the [KeyError]
    raises [TypeError], and the store is not called. *)
Lemma Update_post_missing_key (path : string) (id : Z) (d : dict) (w : world) :
  supported path ->
  dict_get "audioFileType" d = None
  \/ dict_get "audioFileMetadata" d = None ->
  Update_post construct path id (PDict d) w
  = (Exc (TypeError
       "generate_400_response() missing 1 required positional argument: 'error'"),
     w).
Proof.
  intros Hs Hk. unfold Update_post.
  rewrite (supported_check _ Hs).
  unfold bind_block, bind, try_except, py_getitem.
  destruct (dict_get "audioFileType" d) as [a|]; [|reflexivity].
  destruct Hk as [Hk|Hk]; [discriminate|]. rewrite Hk. reflexivity.
Qed.

(** A body with its two keys in their shapes and the type of the path: the
    handler gets to the lookup. *)
Lemma Update_post_not_found (path : string) (id : Z) (d : dict) (a : string)
  (md : dict) (w : world) :
  supported path ->
  dict_get "audioFileType" d = Some (PStr a) ->
  dict_get "audioFileMetadata" d = Some (PDict md) ->
  Str.lower a = Str.lower path ->
  no_fault w ->
  find (Store.matches (type_id_filter (Str.capitalize path) id)) (docs w)
  = None ->
  Update_post construct path id (PDict d) w
  = (Ok (generate_400_response
           ("No document found for ID - " ++ Str.of_Z id)%string, 400),
     Store.called (EvFindOne (type_id_filter (Str.capitalize path) id)) w).
Proof.
  intros Hs Ha Hm Hc Hf Hd. unfold Update_post.
  rewrite (supported_check _ Hs).
  unfold bind_block, bind, try_except, py_getitem.
  rewrite Ha, Hm. cbn.
  apply StrFacts.capitalize_eq_iff in Hc. rewrite Hc, String.eqb_refl. cbn.
  unfold Store.find_one. rewrite (StoreFacts.call_ok _ _ _ Hf).
  cbn [Store.called docs].
  fold (type_id_filter (Str.capitalize path) id). rewrite Hd. reflexivity.
Qed.

(** The handler from the lookup on, when the lookup finds a document. *)
Lemma Update_post_found (path : string) (id : Z) (data : pyval) (md : dict)
  (t : AudioType) (old : dict) (w : world) :
  resolve path = Some t ->
  update_body path data md ->
  no_fault w ->
  find (Store.matches (type_id_filter (Str.capitalize path) id)) (docs w)
  = Some old ->
  let flt := type_id_filter (Str.capitalize path) id in
  let w1 := log_event (EvConstruct t (PDict md)) (Store.called (EvFindOne flt) w) in
  Update_post construct path id data w
  = match construct t (PDict md) with
    | Ok fields =>
        let new := dict_set "_id" (PInt id) fields in
        let w2 := Store.called (EvFindOneAndReplace flt new) w1 in
        match faults w1 with
        | Some detail :: _ =>
            (Ok (generate_500_response
                   ("database query and replace failed - " ++ detail)%string,
                 500), w2)
        | _ =>
            (Ok (update_complete (Str.capitalize path) id (Some old) new),
             Store.with_docs w2 (Store.replace_first flt new (docs w)))
        end
    | Exc (MetadataValueError detail) =>
        (Ok (generate_400_response detail, 400), w1)
    | Exc (MetadataGenerationError detail) =>
        (Ok (generate_500_response
               ("metadata generation for " ++ Str.capitalize path
                ++ " - " ++ detail)%string, 500), w1)
    | Exc e =>
        (Ok (generate_500_response
               ("document update failed - " ++ exn_str e)%string, 500), w1)
    end.
Proof.
  intros Ht (d & a & -> & Ha & Hm & Hc) Hf Hd flt w1. subst flt w1.
  assert (Hs : supported path) by (apply supported_resolve; eauto).
  unfold Update_post.
  rewrite (supported_check _ Hs).
  unfold bind_block at 1, bind at 1, try_except at 1, py_getitem.
  rewrite Ha. unfold bind at 1. cbn [ret]. rewrite Hm.
  unfold bind at 1. cbn [ret continue isinstance_str isinstance_dict negb].
  unfold py_capitalize, bind at 1. cbn [ret].
  apply StrFacts.capitalize_eq_iff in Hc. rewrite Hc, String.eqb_refl.
  cbn [negb].
  change [("type", PStr (Str.capitalize path)); ("_id", PInt id)]
    with (type_id_filter (Str.capitalize path) id).
  unfold bind_block at 1, bind at 1, try_except at 1.
  unfold Store.find_one at 1, bind at 1.
  rewrite (StoreFacts.call_ok _ _ _ Hf).
  cbn [Store.called docs ret continue]. rewrite Hd.
  pose proof (find_some _ _ Hd) as [_ Hmatch].
  rewrite (StoreFacts.matches_truthy _ _ _ Hmatch). cbn [negb].
  apply StoreFacts.matches_type_id in Hmatch as [_ Hid].
  unfold bind_block at 1, bind at 1.
  fold (Store.called (EvFindOne (type_id_filter (Str.capitalize path) id)) w).
  rewrite (Update_build_run path t (PDict md) old (PInt id) _ Ht Hid).
  destruct (construct t (PDict md)) as [fields|e].
  - cbn [ret]. unfold bind_block, bind, try_except, Store.find_one_and_replace.
    unfold Store.call.
    destruct (faults (log_event _ _)) as [|[detail|] fs] eqn:Hfs;
      cbn [ret continue]; try reflexivity.
    + cbn [Store.called docs log_event]. rewrite Hd. reflexivity.
    + cbn [Store.called docs log_event]. rewrite Hd. reflexivity.
  - destruct e; reflexivity.
Qed.

(** Every run of Update either gets past the lookup, with a body that
    passed the checks and a document found, or ends before any constructor
    is called, with a reply that is not a 200 or with an exception, and with
    the collection as it was. *)
Lemma Update_post_cases (path : string) (id : Z) (data : pyval) (w : world) :
  (exists t md old,
      resolve path = Some t
      /\ update_body path data md
      /\ no_fault w
      /\ find (Store.matches (type_id_filter (Str.capitalize path) id)) (docs w)
         = Some old)
  \/ (exists l,
         log (snd (Update_post construct path id data w)) = log w ++ l
         /\ Forall (fun e => is_store_event e = true) l)
     /\ docs (snd (Update_post construct path id data w)) = docs w
     /\ (forall body,
            fst (Update_post construct path id data w) <> Ok (body, 200)).
Proof.
  assert (Hnil : forall w0 : world, exists l,
             log w0 = log w0 ++ l
             /\ Forall (fun e => is_store_event e = true) l).
  { intros w0. exists []. now rewrite app_nil_r. }
  assert (Hone : forall (w0 : world) (ev : event), is_store_event ev = true ->
             exists l,
               log (Store.called ev w0) = log w0 ++ l
               /\ Forall (fun e => is_store_event e = true) l).
  { intros w0 ev Hev. exists [ev]. split; [reflexivity|]. now constructor. }
  destruct (Update_post construct path id data w) as [r w'] eqn:E.
  cbn [fst snd].
  destruct (resolve path) as [t|] eqn:Ht.
  2:{ right. rewrite Update_post_unsupported in E.
      - injection E as <- <-.
        split; [apply Hnil|]. split; [reflexivity | discriminate].
      - intros Hs. apply supported_resolve in Hs as [t Hs]. congruence. }
  assert (Hs : supported path) by (apply supported_resolve; eauto).
  unfold Update_post in E. rewrite (supported_check _ Hs) in E.
  unfold bind_block at 1, bind at 1, try_except at 1 in E.
  destruct data as [| | | |l|d];
    try (right; injection E as <- <-;
         split; [apply Hnil|]; split; [reflexivity | discriminate]).
  unfold py_getitem in E.
  destruct (dict_get "audioFileType" d) as [a|] eqn:Ha;
    [|right; injection E as <- <-;
      split; [apply Hnil|]; split; [reflexivity | discriminate]].
  unfold bind at 1 in E. cbn [ret] in E.
  destruct (dict_get "audioFileMetadata" d) as [m|] eqn:Hm;
    [|right; injection E as <- <-;
      split; [apply Hnil|]; split; [reflexivity | discriminate]].
  unfold bind at 1 in E. cbn [ret continue] in E.
  destruct a as [| | |a| |];
    try (right; injection E as <- <-;
         split; [apply Hnil|]; split; [reflexivity | discriminate]).
  destruct m as [| | | | |md];
    try (right; injection E as <- <-;
         split; [apply Hnil|]; split; [reflexivity | discriminate]).
  cbn [isinstance_str isinstance_dict negb] in E.
  unfold py_capitalize, bind at 1 in E. cbn [ret] in E.
  destruct (String.eqb_spec (Str.capitalize a) (Str.capitalize path)) as [Hc|Hc];
    [|right; injection E as <- <-;
      split; [apply Hnil|]; split; [reflexivity | discriminate]].
  apply StrFacts.capitalize_eq_iff in Hc. cbn [negb] in E.
  change [("type", PStr (Str.capitalize path)); ("_id", PInt id)]
    with (type_id_filter (Str.capitalize path) id) in E.
  unfold bind_block at 1, bind at 1, try_except at 1 in E.
  unfold Store.find_one at 1, bind at 1 in E.
  destruct (StoreFacts.call_cases
              (EvFindOne (type_id_filter (Str.capitalize path) id))
              (fun w0 => (Ok (find (Store.matches
                                      (type_id_filter (Str.capitalize path) id))
                                (docs w0)), w0)) w)
    as [[Hf Hcall]|[detail Hcall]]; rewrite Hcall in E; clear Hcall.
  - cbn [Store.called docs ret continue] in E.
    destruct (find _ (docs w)) as [old|] eqn:Hd.
    + left. exists t, md, old. repeat split; try assumption.
      exists d, a. auto.
    + right. cbn [truthy_doc negb] in E. injection E as <- <-.
      split; [apply Hone; reflexivity|]. split; [reflexivity | discriminate].
  - right. injection E as <- <-. split; [apply Hone; reflexivity|].
    split; [reflexivity | discriminate].
Qed.

End UpdateFacts.

Lemma dict_get_set_same (k : string) (v : pyval) (d : dict) :
  dict_get k (dict_set k v d) = Some v.
Proof.
  induction d as [|[k' v'] d IH]; simpl.
  - now rewrite String.eqb_refl.
  - destruct (String.eqb_spec k k') as [E|E]; simpl.
    + now rewrite String.eqb_refl.
    + destruct (String.eqb_spec k k'); [contradiction | exact IH].
Qed.

Lemma dict_get_set_other (k k' : string) (v : pyval) (d : dict) :
  k <> k' -> dict_get k' (dict_set k v d) = dict_get k' d.
Proof.
  intros Hk. induction d as [|[k0 v0] d IH]; simpl.
  - destruct (String.eqb_spec k' k); [congruence | reflexivity].
  - destruct (String.eqb_spec k k0) as [E|E]; simpl.
    + subst k0. destruct (String.eqb_spec k' k); [congruence | reflexivity].
    + destruct (String.eqb_spec k' k0); [reflexivity | exact IH].
Qed.

Lemma app_same_nil {A} (l x : list A) : l = l ++ x -> x = [].
Proof.
  intros H. apply (app_inv_head l). now rewrite app_nil_r.
Qed.

(** C2.  Update with a supported path and a body that has no
    [audioFileMetadata]: the handler returns no 400 that names the key;
    the clause for the [KeyError] (line 133) calls [generate_400_response]
    without its argument and a [TypeError] leaves the handler.  The store
    is not called.  Create returns the 400 that names the key for the same
    body. *)
Theorem Update_missing_key_raises :
  Update_post sample_construct "song" 2 (body_without_metadata "song")
    sample_world
  = (Exc (TypeError
       "generate_400_response() missing 1 required positional argument: 'error'"),
     sample_world)
  /\ Create_post sample_construct (body_without_metadata "song") sample_world
     = (Ok (generate_400_response "'audioFileMetadata' is required", 400),
        sample_world).
Proof. split; reflexivity. Qed.

(** A body with both keys whose [audioFileType] is not, once capitalized,
    the capitalized type of the path (or is not a string at all): the reply
    is a 400 and the world is the one the request started in, so no call
    was made to the store or to a constructor. *)
Lemma Update_type_mismatch_checked
  (construct : AudioType -> pyval -> res dict)
  (path : string) (id : Z) (d : dict) (v md : pyval) (w : world) :
  dict_get "audioFileType" d = Some v ->
  dict_get "audioFileMetadata" d = Some md ->
  (forall a, v = PStr a -> Str.capitalize a <> Str.capitalize path) ->
  exists error,
    Update_post construct path id (PDict d) w
    = (Ok (generate_400_response error, 400), w).
Proof.
  intros Hv Hm Hneq. unfold Update_post.
  destruct (Str.mem (Str.lower (Str.capitalize path)) supported_types);
    cbn [negb]; [|eexists; reflexivity].
  unfold bind_block at 1, bind at 1, try_except at 1, py_getitem.
  rewrite Hv. unfold bind at 1. cbn [ret]. rewrite Hm.
  unfold bind at 1. cbn [ret continue].
  destruct v as [| | |a| |]; try (eexists; reflexivity).
  destruct md as [| | | | |md]; try (eexists; reflexivity).
  cbn [isinstance_str isinstance_dict negb py_capitalize].
  unfold bind at 1. cbn [ret].
  destruct (String.eqb_spec (Str.capitalize a) (Str.capitalize path)) as [E|E].
  - exfalso. exact (Hneq a eq_refl E).
  - eexists; reflexivity.
Qed.

(** C5.  Update on the path [song] with the body type [Podcast]: with
    both keys in the body the reply is the 400 [must match endpoint] and
    the world is untouched; with the same type and no [audioFileMetadata]
    no 400 is returned: the clause of line 133 raises [TypeError] before
    the types are compared. *)
Theorem Update_type_mismatch_raises :
  Update_post sample_construct "song" 2 (body_without_metadata "Podcast")
    sample_world
  = (Exc (TypeError
       "generate_400_response() missing 1 required positional argument: 'error'"),
     sample_world)
  /\ Update_post sample_construct "song" 2 (body_of "Podcast" []) sample_world
     = (Ok (generate_400_response "'audioFileType' must match endpoint", 400),
        sample_world).
Proof. split; reflexivity. Qed.

(** C7.  Update with a supported path and a body that passes the checks,
    when the store answers the lookup of the type and identifier with no
    document: the reply is the 400 [No document found for ID - ...], the
    collection is as it was, and the lookup is the only call made (no
    constructor, no replacement). *)
Theorem Update_no_document
  (construct : AudioType -> pyval -> res dict)
  (path : string) (id : Z) (data : pyval) (md : dict) (w w1 : world) :
  supported path ->
  update_body path data md ->
  Store.find_one (type_id_filter (Str.capitalize path) id) w = (Ok None, w1) ->
  Update_post construct path id data w
  = (Ok (generate_400_response
           ("No document found for ID - " ++ Str.of_Z id)%string, 400), w1)
  /\ docs w1 = docs w
  /\ log w1 = log w ++ [EvFindOne (type_id_filter (Str.capitalize path) id)].
Proof.
  intros Hs (d & a & -> & Ha & Hm & Hc) Hcall.
  apply StoreFacts.find_one_inv in Hcall as (Hf & Hd & ->). symmetry in Hd.
  split.
  - apply (Update_post_not_found construct path id d a md w); assumption.
  - split; reflexivity.
Qed.

Lemma Update_no_document_witness :
  supported "song" /\ update_body "song" (body_of "SONG" []) []
  /\ exists w1,
       Store.find_one (type_id_filter "Song" 7) sample_world = (Ok None, w1)
       /\ Update_post sample_construct "song" 7 (body_of "SONG" [])
            sample_world
          = (Ok (generate_400_response "No document found for ID - 7", 400),
             w1)
       /\ docs w1 = docs sample_world.
Proof.
  assert (Hs : supported "song") by reflexivity.
  assert (Hb : update_body "song" (body_of "SONG" []) []).
  { exists [("audioFileType", PStr "SONG"); ("audioFileMetadata", PDict [])],
      "SONG"%string.
    repeat split. }
  split; [exact Hs|]. split; [exact Hb|].
  exists (Store.called (EvFindOne (type_id_filter "Song" 7)) sample_world).
  assert (Hcall :
    Store.find_one (type_id_filter (Str.capitalize "song") 7) sample_world
    = (Ok None, Store.called (EvFindOne (type_id_filter "Song" 7))
                  sample_world)) by reflexivity.
  split; [exact Hcall|].
  destruct (Update_no_document sample_construct "song" 7 (body_of "SONG" []) []
              sample_world _ Hs Hb Hcall) as (H & Hd & _).
  split; assumption.
Defined.

(** C6.  An Update that answers 200 found a document [old] of the type and
    identifier, with [_id] the identifier of the path; the replacement
    [new] is the metadata of the new object with [_id] set to that same
    value and every other field as generated; in the collection [new]
    stands where [old] stood and nothing else moved; and the body of the
    reply carries [old] as [pre-update] and [new] as [post-update]. *)
Theorem Update_replaces_document
  (construct : AudioType -> pyval -> res dict)
  (path : string) (id : Z) (data : pyval) (w w' : world) (body : dict) :
  Update_post construct path id data w = (Ok (body, 200), w') ->
  exists t md fields old before after,
    let flt := type_id_filter (Str.capitalize path) id in
    let new := dict_set "_id" (PInt id) fields in
    resolve path = Some t
    /\ update_body path data md
    /\ construct t (PDict md) = Ok fields
    /\ find (Store.matches flt) (docs w) = Some old
    /\ dict_get "_id" old = Some (PInt id)
    /\ dict_get "_id" new = dict_get "_id" old
    /\ (forall k, k <> "_id"%string -> dict_get k new = dict_get k fields)
    /\ docs w = before ++ old :: after
    /\ Forall (fun x => Store.matches flt x = false) before
    /\ docs w' = before ++ new :: after
    /\ dict_get "status" body = Some (PInt 200)
    /\ dict_get "pre-update" body = Some (PDict old)
    /\ dict_get "post-update" body = Some (PDict new).
Proof.
  intros H.
  destruct (Update_post_cases construct path id data w)
    as [(t & md & old & Ht & Hb & Hf & Hd)|(_ & _ & Hno)].
  2:{ exfalso. apply (Hno body). now rewrite H. }
  rewrite (Update_post_found construct path id data md t old w Ht Hb Hf Hd) in H.
  destruct (construct t (PDict md)) as [fields|e] eqn:Hc.
  2:{ destruct e; discriminate. }
  cbv zeta in H.
  assert (Hrun :
    (Ok (update_complete (Str.capitalize path) id (Some old)
           (dict_set "_id" (PInt id) fields)),
     Store.with_docs
       (Store.called
          (EvFindOneAndReplace (type_id_filter (Str.capitalize path) id)
             (dict_set "_id" (PInt id) fields))
          (log_event (EvConstruct t (PDict md))
             (Store.called
                (EvFindOne (type_id_filter (Str.capitalize path) id)) w)))
       (Store.replace_first (type_id_filter (Str.capitalize path) id)
          (dict_set "_id" (PInt id) fields) (docs w)))
    = (Ok (body, 200), w')).
  { destruct (faults _) as [|[detail|] fs]; try exact H. discriminate. }
  clear H. injection Hrun as Hbody Hw.
  destruct (StoreFacts.find_first _ _ _ Hd)
    as (before & after & Hsplit & Hm & Hbefore & Hrep & _).
  pose proof (proj1 (StoreFacts.matches_type_id _ _ _) Hm) as [_ Hid].
  exists t, md, fields, old, before, after. cbv zeta.
  repeat (split; [assumption|]).
  split; [now rewrite dict_get_set_same|].
  split; [intros k Hk; apply dict_get_set_other; congruence|].
  split; [assumption|]. split; [assumption|].
  split; [subst w'; cbn; apply Hrep|].
  subst body. repeat split.
Qed.

Lemma Update_replaces_document_witness :
  exists body w',
    Update_post sample_construct "song" 2
      (body_of "SONG" [("name", PStr "New"); ("_id", PInt 9)]) sample_world
    = (Ok (body, 200), w')
    /\ exists old new,
         dict_get "pre-update" body = Some (PDict old)
         /\ dict_get "post-update" body = Some (PDict new)
         /\ dict_get "_id" new = dict_get "_id" old.
Proof.
  pose (run := Update_post sample_construct "song" 2
                 (body_of "SONG" [("name", PStr "New"); ("_id", PInt 9)])
                 sample_world).
  pose (body := fst (update_complete "Song" 2 (Some (song 2 "Theme"))
                       (song 2 "New"))).
  assert (Hrun : run = (Ok (body, 200), snd run)) by reflexivity.
  exists body, (snd run). split; [exact Hrun|].
  destruct (Update_replaces_document sample_construct "song" 2
              (body_of "SONG" [("name", PStr "New"); ("_id", PInt 9)])
              sample_world (snd run) body Hrun)
    as (t & md & fields & old & before & after & H).
  cbv zeta in H.
  destruct H as (_ & _ & _ & _ & _ & Hid & _ & _ & _ & _ & _ & Hpre & Hpost).
  exists old, (dict_set "_id" (PInt 2) fields). repeat split; assumption.
Defined.

(** ** Create *)

Section CreateFacts.

Variable construct : AudioType -> pyval -> res dict.

(** A body with both keys: the first test, [isinstance(audiotype)] with a
    single argument, raises. *)
Lemma Create_post_both_keys (d : dict) (a m : pyval) (w : world) :
  dict_get "audioFileType" d = Some a ->
  dict_get "audioFileMetadata" d = Some m ->
  Create_post construct (PDict d) w
  = (Exc (TypeError "isinstance expected 2 arguments, got 1"), w).
Proof.
  intros Ha Hm. unfold Create_post, bind_block, bind, try_except, py_getitem.
  rewrite Ha, Hm. reflexivity.
Qed.

(** No run of Create calls a collaborator, and none answers 200. *)
Lemma Create_post_calls_nothing (data : pyval) (w : world) :
  snd (Create_post construct data w) = w
  /\ forall body, fst (Create_post construct data w) <> Ok (body, 200).
Proof.
  unfold Create_post, bind_block, bind, try_except, py_getitem.
  destruct data as [| | | |l|d]; try (split; [reflexivity | discriminate]).
  destruct (dict_get "audioFileType" d) as [a|];
    [|split; [reflexivity | discriminate]].
  destruct (dict_get "audioFileMetadata" d) as [m|];
    split; try reflexivity; discriminate.
Qed.

(** The block of lines 69-83, for each outcome of [new_audio]. *)
Lemma Create_build_run (s : string) (md : pyval) (w : world) :
  Create_build construct (PStr s) md w
  = match resolve s with
    | None =>
        (Ok (inl (generate_400_response "'None' is not supported", 400)), w)
    | Some t =>
        (match construct t md with
         | Ok fields =>
             Ok (inr (Str.capitalize s, {| kind := t; metadata := fields |}))
         | Exc (MetadataValueError detail) =>
             Ok (inl (generate_400_response detail, 400))
         | Exc (MetadataGenerationError detail) =>
             Ok (inl (generate_500_response
                        ("metadata generation for " ++ Str.capitalize s
                         ++ " - " ++ detail)%string, 500))
         | Exc e => Exc e
         end, log_event (EvConstruct t md) w)
    end.
Proof.
  unfold Create_build, py_capitalize, bind at 1. cbn [ret].
  unfold try_except, bind at 1. rewrite new_audio_resolve.
  rewrite (resolve_case _ s (StrFacts.lower_capitalize s)).
  destruct (resolve s) as [t|]; [|reflexivity].
  unfold bind, new_object.
  destruct (construct t md) as [fields|e]; [reflexivity|].
  destruct e; reflexivity.
Qed.

End CreateFacts.

(** C1.  Create with both keys and the type [video]: no 400 is returned;
    the test of line 61 raises [TypeError] before the type is looked at,
    and the exception leaves the handler.  No collaborator is called.  The
    block of lines 69-83, were it reached, would return a 400 whose message
    names [None] (the value of [audiofile]) and not the token [video]; Delete
    names the token of its path in the same place. *)
Theorem Create_unsupported_type_raises :
  Create_post sample_construct (body_of "video" []) empty_world
  = (Exc (TypeError "isinstance expected 2 arguments, got 1"), empty_world)
  /\ Create_build sample_construct (PStr "video") (PDict []) empty_world
     = (Ok (inl (generate_400_response "'None' is not supported", 400)),
        empty_world)
  /\ Delete_get "video" 1 empty_world
     = (Ok (generate_400_response "'Video' is not supported", 400),
        empty_world).
Proof. repeat split. Qed.


(** * Further properties of the handlers *)

(** ** Paths *)

Lemma Delete_get_unsupported (path : string) (id : Z) (w : world) :
  ~ supported path ->
  Delete_get path id w
  = (Ok (generate_400_response
           ("'" ++ Str.capitalize path ++ "' is not supported")%string, 400),
     w).
Proof.
  intros Hs. unfold Delete_get. rewrite StrFacts.path_check.
  unfold supported in Hs.
  destruct (Str.mem (Str.lower path) supported_types); [tauto | reflexivity].
Qed.

Lemma Get_get_unsupported (path : string) (audioID : option Z) (w : world) :
  ~ supported path ->
  Get_get path audioID w
  = (Ok (generate_400_response
           ("'" ++ Str.capitalize path ++ "' is not supported")%string, 400),
     w).
Proof.
  intros Hs. unfold Get_get. rewrite StrFacts.path_check.
  unfold supported in Hs.
  destruct (Str.mem (Str.lower path) supported_types); [tauto | reflexivity].
Qed.

Lemma supported_dec (path : string) : supported path \/ ~ supported path.
Proof.
  unfold supported.
  destruct (Str.mem (Str.lower path) supported_types); auto.
Qed.

(** X3.  An ASCII path type that is none of the three names, in any
    letter case, is refused in the same way by Delete, Update and Get: the
    400 whose error is the capitalized token between quotes followed by
    [is not supported], with no call to the store or to a constructor,
    whatever the identifier and the body; Update refuses before it reads
    the body. *)
Theorem unsupported_path_refused
  (construct : AudioType -> pyval -> res dict)
  (path : string) (id : Z) (audioID : option Z) (request : res pyval)
  (w : world) :
  Str.is_ascii path = true ->
  ~ supported path ->
  let refusal :=
    (generate_400_response
       ("'" ++ Str.capitalize path ++ "' is not supported")%string, 400) in
  Delete_get path id w = (Ok refusal, w)
  /\ Update_request construct path id request w = (Ok refusal, w)
  /\ Get_get path audioID w = (Ok refusal, w).
Proof.
  intros _ Hs refusal. subst refusal.
  split; [now apply Delete_get_unsupported|].
  split; [|now apply Get_get_unsupported].
  unfold Update_request. rewrite StrFacts.path_check.
  unfold supported in Hs.
  destruct (Str.mem (Str.lower path) supported_types); [tauto | reflexivity].
Qed.

Lemma unsupported_path_refused_witness :
  Str.is_ascii "video" = true
  /\ ~ supported "video"
  /\ Delete_get "video" 3 sample_world
     = (Ok (generate_400_response "'Video' is not supported", 400),
        sample_world)
  /\ Update_request sample_construct "video" 3 (Exc (OtherError "not JSON"))
       sample_world
     = (Ok (generate_400_response "'Video' is not supported", 400),
        sample_world).
Proof.
  assert (Ha : Str.is_ascii "video" = true) by reflexivity.
  assert (Hs : ~ supported "video") by (intros H; discriminate H).
  split; [exact Ha|]. split; [exact Hs|].
  destruct (unsupported_path_refused sample_construct "video" 3 None
              (Exc (OtherError "not JSON")) sample_world Ha Hs)
    as (Hd & Hu & _).
  split; [exact Hd | exact Hu].
Defined.

(** X14.  The three handlers with a path read an ASCII type without
    regard to letter case: two ASCII tokens with the same lower-case form
    give the same run, reply and world alike. *)
Theorem path_case_insensitive
  (construct : AudioType -> pyval -> res dict)
  (p q : string) (id : Z) (audioID : option Z) (request : res pyval)
  (w : world) :
  Str.is_ascii p = true ->
  Str.is_ascii q = true ->
  Str.lower p = Str.lower q ->
  Delete_get p id w = Delete_get q id w
  /\ Update_request construct p id request w
     = Update_request construct q id request w
  /\ Get_get p audioID w = Get_get q audioID w.
Proof.
  intros _ _ H. apply StrFacts.capitalize_eq_iff in H.
  unfold Update_request, Delete_get, Update_post, Get_get. rewrite H.
  repeat split.
Qed.

Lemma path_case_insensitive_witness :
  Str.is_ascii "SoNg" = true /\ Str.is_ascii "song" = true
  /\ Str.lower "SoNg" = Str.lower "song"
  /\ Get_get "SoNg" (Some 2) sample_world = Get_get "song" (Some 2) sample_world.
Proof.
  assert (Hp : Str.is_ascii "SoNg" = true) by reflexivity.
  assert (Hq : Str.is_ascii "song" = true) by reflexivity.
  assert (H : Str.lower "SoNg" = Str.lower "song") by reflexivity.
  split; [exact Hp|]. split; [exact Hq|]. split; [exact H|].
  exact (proj2 (proj2 (path_case_insensitive sample_construct "SoNg" "song" 2
                         (Some 2) (Ok PNone) sample_world Hp Hq H))).
Defined.

(** ** [new_audio] and Create *)

(** X13.  For a type [new_audio] resolves, the outcome of the constructor
    is the outcome of [new_audio]: the object on success, and on failure the
    exception with its kind and text, whatever its kind; the two clauses
    that raise again change nothing.  Exactly one call is logged. *)
Theorem new_audio_passes_outcome
  (construct : AudioType -> pyval -> res dict)
  (s : string) (t : AudioType) (md : pyval) (w : world) :
  resolve s = Some t ->
  new_audio construct s md w
  = (match construct t md with
     | Ok fields => Ok (Some {| kind := t; metadata := fields |})
     | Exc e => Exc e
     end, log_event (EvConstruct t md) w).
Proof.
  intros Ht. rewrite new_audio_resolve, Ht.
  unfold bind, new_object. destruct (construct t md); reflexivity.
Qed.

Lemma new_audio_passes_outcome_witness :
  resolve "SONG" = Some Song
  /\ fst (new_audio broken_construct "SONG" (PDict []) empty_world)
     = Exc (OtherError "unexpected")
  /\ fst (new_audio sample_construct "SONG" (PDict []) empty_world)
     = Exc (MetadataValueError "name is required").
Proof.
  assert (H : resolve "SONG" = Some Song) by reflexivity.
  split; [exact H|]. split.
  - exact (f_equal fst (new_audio_passes_outcome broken_construct "SONG" Song
                          (PDict []) empty_world H)).
  - exact (f_equal fst (new_audio_passes_outcome sample_construct "SONG" Song
                          (PDict []) empty_world H)).
Defined.

(** X1.  Create on a dict body that lacks one of the two keys answers the
    400 that names the first key it misses ([audioFileType] is read first),
    between quotes and followed by [is required], and calls nothing. *)
Theorem Create_missing_key
  (construct : AudioType -> pyval -> res dict) (d : dict) (w : world) :
  dict_get "audioFileType" d = None
  \/ dict_get "audioFileMetadata" d = None ->
  exists key,
    Create_post construct (PDict d) w
    = (Ok (generate_400_response ("'" ++ key ++ "' is required")%string, 400),
       w)
    /\ dict_get key d = None
    /\ (key = "audioFileType"%string
        \/ key = "audioFileMetadata"%string
           /\ dict_get "audioFileType" d <> None).
Proof.
  intros Hk. unfold Create_post, bind_block, bind, try_except, py_getitem.
  destruct (dict_get "audioFileType" d) as [a|] eqn:Ha.
  - destruct Hk as [Hk|Hk]; [discriminate|]. rewrite Hk.
    exists "audioFileMetadata"%string. repeat split; auto.
    right. split; [reflexivity | discriminate].
  - exists "audioFileType"%string. repeat split; auto.
Qed.

Lemma Create_missing_key_witness :
  Create_post sample_construct (body_without_metadata "song") sample_world
  = (Ok (generate_400_response "'audioFileMetadata' is required", 400),
     sample_world)
  /\ exists key,
       Create_post sample_construct (PDict []) sample_world
       = (Ok (generate_400_response ("'" ++ key ++ "' is required")%string,
              400), sample_world).
Proof.
  split; [reflexivity|].
  destruct (Create_missing_key sample_construct [] sample_world
              (or_introl eq_refl)) as (key & H & _).
  exists key. exact H.
Defined.

(** X2.  No run of Create answers 200 or reaches a collaborator:
    whether [get_json] gives a body or raises, the world is left as it was,
    and the outcome is the 400 for a missing key, an escaping [TypeError]
    (a body that is not a dict, or the one-argument [isinstance] of line 61
    for a dict with both keys), or the escaping exception of [get_json]. *)
Theorem Create_never_succeeds
  (construct : AudioType -> pyval -> res dict) (request : res pyval)
  (w : world) :
  snd (Create_request construct request w) = w
  /\ ((exists key,
          fst (Create_request construct request w)
          = Ok (generate_400_response ("'" ++ key ++ "' is required")%string,
                400))
      \/ (exists msg,
             fst (Create_request construct request w) = Exc (TypeError msg))
      \/ (exists e,
             request = Exc e
             /\ fst (Create_request construct request w) = Exc e)).
Proof.
  unfold Create_request, get_json, bind at 1.
  destruct request as [data|e];
    [|split; [reflexivity | right; right; eexists; split; reflexivity]].
  unfold Create_post, bind_block, bind, try_except, py_getitem.
  destruct data as [| | | |l|d];
    try (split; [reflexivity | right; left; eexists; reflexivity]).
  destruct (dict_get "audioFileType" d) as [a|];
    [|split; [reflexivity | left; exists "audioFileType"%string; reflexivity]].
  destruct (dict_get "audioFileMetadata" d) as [m|].
  - split; [reflexivity | right; left; eexists; reflexivity].
  - split; [reflexivity
           | left; exists "audioFileMetadata"%string; reflexivity].
Qed.

(** ** Faults of the store *)

Lemma Delete_get_fault (path : string) (id : Z) (w : world) (detail : string)
  (fs : list (option string)) :
  supported path ->
  faults w = Some detail :: fs ->
  Delete_get path id w
  = (Ok (generate_500_response
           ("database query and delete failed - " ++ detail)%string, 500),
     Store.called
       (EvFindOneAndDelete (type_id_filter (Str.capitalize path) id)) w).
Proof.
  intros Hs Hf. unfold Delete_get. rewrite (supported_check _ Hs).
  unfold bind_block, bind, try_except, Store.find_one_and_delete.
  rewrite (StoreFacts.call_fault _ _ _ _ _ Hf). reflexivity.
Qed.

Lemma Get_get_fault (path : string) (audioID : option Z) (w : world)
  (detail : string) (fs : list (option string)) :
  supported path ->
  faults w = Some detail :: fs ->
  exists ev,
    Get_get path audioID w
    = (Ok (generate_500_response
             ("database query failed - " ++ detail)%string, 500),
       Store.called ev w)
    /\ is_store_event ev = true.
Proof.
  intros Hs Hf. unfold Get_get. rewrite (supported_check _ Hs).
  unfold bind_block, bind, try_except.
  destruct (truthy_int audioID).
  - unfold Store.find_one. rewrite (StoreFacts.call_fault _ _ _ _ _ Hf).
    eexists. split; reflexivity.
  - unfold Store.find_all. rewrite (StoreFacts.call_fault _ _ _ _ _ Hf).
    eexists. split; reflexivity.
Qed.

Lemma Update_post_fault
  (construct : AudioType -> pyval -> res dict)
  (path : string) (id : Z) (data : pyval) (md : dict) (w : world)
  (detail : string) (fs : list (option string)) :
  supported path ->
  update_body path data md ->
  faults w = Some detail :: fs ->
  Update_post construct path id data w
  = (Ok (generate_500_response
           ("database query failed - " ++ detail)%string, 500),
     Store.called (EvFindOne (type_id_filter (Str.capitalize path) id)) w).
Proof.
  intros Hs (d & a & -> & Ha & Hm & Hc) Hf. unfold Update_post.
  rewrite (supported_check _ Hs).
  unfold bind_block, bind, try_except, py_getitem.
  rewrite Ha, Hm. cbn.
  apply StrFacts.capitalize_eq_iff in Hc. rewrite Hc, String.eqb_refl. cbn.
  unfold Store.find_one. rewrite (StoreFacts.call_fault _ _ _ _ _ Hf).
  reflexivity.
Qed.

(** X5.  When the driver raises at the first call of a request with a
    supported path, each handler answers a 500 whose error is its own
    prefix followed by the text of the exception ([database query and
    delete failed - ] for Delete, [database query failed - ] for Get and for
    the lookup of Update), and the collection is as it was. *)
Theorem store_fault_replies
  (construct : AudioType -> pyval -> res dict)
  (path : string) (id : Z) (audioID : option Z) (data : pyval) (md : dict)
  (w : world) (detail : string) (fs : list (option string)) :
  supported path ->
  update_body path data md ->
  faults w = Some detail :: fs ->
  fst (Delete_get path id w)
  = Ok (generate_500_response
          ("database query and delete failed - " ++ detail)%string, 500)
  /\ docs (snd (Delete_get path id w)) = docs w
  /\ fst (Get_get path audioID w)
     = Ok (generate_500_response
             ("database query failed - " ++ detail)%string, 500)
  /\ docs (snd (Get_get path audioID w)) = docs w
  /\ fst (Update_post construct path id data w)
     = Ok (generate_500_response
             ("database query failed - " ++ detail)%string, 500)
  /\ docs (snd (Update_post construct path id data w)) = docs w.
Proof.
  intros Hs Hb Hf.
  rewrite (Delete_get_fault _ _ _ _ _ Hs Hf).
  destruct (Get_get_fault path audioID w detail fs Hs Hf) as (ev & -> & _).
  rewrite (Update_post_fault construct _ _ _ _ _ _ _ Hs Hb Hf).
  repeat split.
Qed.

Lemma store_fault_replies_witness :
  supported "song" /\ update_body "song" (body_of "SONG" []) []
  /\ fst (Delete_get "song" 2 (world_with_faults [Some "timed out"]))
     = Ok (generate_500_response
             "database query and delete failed - timed out", 500)
  /\ docs (snd (Delete_get "song" 2 (world_with_faults [Some "timed out"])))
     = docs sample_world.
Proof.
  assert (Hs : supported "song") by reflexivity.
  assert (Hb : update_body "song" (body_of "SONG" []) []).
  { exists [("audioFileType", PStr "SONG"); ("audioFileMetadata", PDict [])],
      "SONG"%string.
    repeat split. }
  split; [exact Hs|]. split; [exact Hb|].
  destruct (store_fault_replies sample_construct "song" 2 None
              (body_of "SONG" []) [] (world_with_faults [Some "timed out"])
              "timed out" [] Hs Hb eq_refl) as (H1 & H2 & _).
  split; [exact H1 | exact H2].
Defined.

(** ** Get and Delete never raise *)

(** X8.  No exception leaves Get: every run, whatever the path, the
    identifier, the collection and the faults of the driver, ends in a
    reply whose [status] field is the status returned, one of 200, 400 and
    500; the collection is never changed, no constructor is called, and
    the store is called at most once. *)
Theorem Get_always_replies (path : string) (audioID : option Z) (w : world) :
  exists body code w',
    Get_get path audioID w = (Ok (body, code), w')
    /\ dict_get "status" body = Some (PInt code)
    /\ (code = 200 \/ code = 400 \/ code = 500)
    /\ docs w' = docs w
    /\ (w' = w
        \/ exists ev, is_store_event ev = true /\ w' = Store.called ev w).
Proof.
  destruct (supported_dec path) as [Hs|Hs].
  2:{ rewrite (Get_get_unsupported _ _ _ Hs).
      do 3 eexists. split; [reflexivity|]. repeat split; auto. }
  destruct (faults w) as [|[detail|] fs] eqn:Hf.
  - assert (Hn : no_fault w) by (unfold no_fault; now rewrite Hf).
    destruct (Get_get_run path audioID w Hs Hn) as (result & -> & _).
    unfold get_complete. do 3 eexists. split; [reflexivity|].
    repeat split; auto. right. eexists. split; [|reflexivity].
    destruct (truthy_int audioID); reflexivity.
  - destruct (Get_get_fault path audioID w detail fs Hs Hf) as (ev & -> & Hev).
    do 3 eexists. split; [reflexivity|]. repeat split; eauto.
  - assert (Hn : no_fault w) by (unfold no_fault; now rewrite Hf).
    destruct (Get_get_run path audioID w Hs Hn) as (result & -> & _).
    unfold get_complete. do 3 eexists. split; [reflexivity|].
    repeat split; auto. right. eexists. split; [|reflexivity].
    destruct (truthy_int audioID); reflexivity.
Qed.


(** ** Update: shapes, generator and store failures *)

(** X15.  Update with a supported path and a body that has both keys in
    the wrong shape answers a 400 and calls nothing; the type is looked at
    first: [must be an str] when [audioFileType] is not a string, and only
    then [must be a dict] for [audioFileMetadata]. *)
Theorem Update_wrong_shape
  (construct : AudioType -> pyval -> res dict)
  (path : string) (id : Z) (d : dict) (v m : pyval) (w : world) :
  supported path ->
  dict_get "audioFileType" d = Some v ->
  dict_get "audioFileMetadata" d = Some m ->
  isinstance_str v = false \/ isinstance_dict m = false ->
  Update_post construct path id (PDict d) w
  = (Ok (generate_400_response
           (if isinstance_str v
            then "'audioFileMetadata' must be a dict"
            else "'audioFileType' must be an str"), 400), w).
Proof.
  intros Hs Hv Hm Hshape. unfold Update_post.
  rewrite (supported_check _ Hs).
  unfold bind_block at 1, bind at 1, try_except at 1, py_getitem.
  rewrite Hv. unfold bind at 1. cbn [ret]. rewrite Hm.
  unfold bind at 1. cbn [ret continue].
  destruct (isinstance_str v); cbn [negb]; [|reflexivity].
  destruct Hshape as [Hshape|Hshape]; [discriminate|].
  rewrite Hshape. reflexivity.
Qed.

Lemma Update_wrong_shape_witness :
  supported "song"
  /\ Update_post sample_construct "song" 2
       (PDict [("audioFileType", PInt 7); ("audioFileMetadata", PNone)])
       sample_world
     = (Ok (generate_400_response "'audioFileType' must be an str", 400),
        sample_world)
  /\ Update_post sample_construct "song" 2
       (PDict [("audioFileType", PStr "song");
               ("audioFileMetadata", PList [])])
       sample_world
     = (Ok (generate_400_response "'audioFileMetadata' must be a dict", 400),
        sample_world).
Proof.
  assert (Hs : supported "song") by reflexivity.
  split; [exact Hs|]. split.
  - exact (Update_wrong_shape sample_construct "song" 2
             [("audioFileType", PInt 7); ("audioFileMetadata", PNone)]
             (PInt 7) PNone sample_world Hs eq_refl eq_refl
             (or_introl eq_refl)).
  - exact (Update_wrong_shape sample_construct "song" 2
             [("audioFileType", PStr "song"); ("audioFileMetadata", PList [])]
             (PStr "song") (PList []) sample_world Hs eq_refl eq_refl
             (or_intror eq_refl)).
Defined.

(** X16.  When the lookup of Update found a document and the constructor
    fails with an exception that is neither of the two kinds of module
    [audio], the last clause of lines 178-180 answers the 500 [document
    update failed - ] with the text of the exception; the collection is as
    it was and no replacement is asked of the store. *)
Theorem Update_unexpected_failure
  (construct : AudioType -> pyval -> res dict)
  (path : string) (id : Z) (data : pyval) (md : dict) (t : AudioType)
  (old : dict) (e : exn) (w : world) :
  resolve path = Some t ->
  update_body path data md ->
  no_fault w ->
  find (Store.matches (type_id_filter (Str.capitalize path) id)) (docs w)
  = Some old ->
  construct t (PDict md) = Exc e ->
  (forall detail, e <> MetadataValueError detail) ->
  (forall detail, e <> MetadataGenerationError detail) ->
  exists w',
    Update_post construct path id data w
    = (Ok (generate_500_response
             ("document update failed - " ++ exn_str e)%string, 500), w')
    /\ docs w' = docs w
    /\ log w' = log w ++ [EvFindOne (type_id_filter (Str.capitalize path) id);
                          EvConstruct t (PDict md)].
Proof.
  intros Ht Hb Hf Hd Hc Hv Hg.
  rewrite (Update_post_found construct path id data md t old w Ht Hb Hf Hd).
  cbv zeta. rewrite Hc.
  destruct e; try (eexists; split; [reflexivity|]; split;
                   [reflexivity | cbn; now rewrite <- app_assoc]).
  - exfalso. now apply (Hv detail).
  - exfalso. now apply (Hg detail).
Qed.

Lemma Update_unexpected_failure_witness :
  exists w',
    Update_post broken_construct "song" 2 (body_of "SONG" []) sample_world
    = (Ok (generate_500_response "document update failed - unexpected", 500),
       w')
    /\ docs w' = docs sample_world.
Proof.
  assert (Hb : update_body "song" (body_of "SONG" []) []).
  { exists [("audioFileType", PStr "SONG"); ("audioFileMetadata", PDict [])],
      "SONG"%string.
    repeat split. }
  destruct (Update_unexpected_failure broken_construct "song" 2
              (body_of "SONG" []) [] Song (song 2 "Theme")
              (OtherError "unexpected") sample_world
              eq_refl Hb I eq_refl eq_refl
              (fun detail H => eq_ind (OtherError "unexpected")
                 (fun e => match e with OtherError _ => True | _ => False end)
                 I _ H)
              (fun detail H => eq_ind (OtherError "unexpected")
                 (fun e => match e with OtherError _ => True | _ => False end)
                 I _ H))
    as (w' & H & Hd & _).
  exists w'. split; assumption.
Defined.

(** X6.  When the lookup of Update found a document, the replacement was
    built, and the driver raises at the second call, the reply is the 500
    [database query and replace failed - ] with the text of the exception,
    and the collection still holds the old document: nothing was
    replaced. *)
Theorem Update_replace_fault
  (construct : AudioType -> pyval -> res dict)
  (path : string) (id : Z) (data : pyval) (md : dict) (t : AudioType)
  (old fields : dict) (detail : string) (fs : list (option string))
  (w : world) :
  resolve path = Some t ->
  update_body path data md ->
  faults w = None :: Some detail :: fs ->
  find (Store.matches (type_id_filter (Str.capitalize path) id)) (docs w)
  = Some old ->
  construct t (PDict md) = Ok fields ->
  exists w',
    Update_post construct path id data w
    = (Ok (generate_500_response
             ("database query and replace failed - " ++ detail)%string, 500),
       w')
    /\ docs w' = docs w
    /\ faults w' = fs.
Proof.
  intros Ht Hb Hf Hd Hc.
  assert (Hn : no_fault w) by (unfold no_fault; now rewrite Hf).
  rewrite (Update_post_found construct path id data md t old w Ht Hb Hn Hd).
  cbv zeta. rewrite Hc.
  cbn [faults log_event Store.called]. rewrite Hf. cbn [tl].
  eexists. split; [reflexivity|]. split; [reflexivity|].
  cbn [faults log_event Store.called]. now rewrite Hf.
Qed.

Lemma Update_replace_fault_witness :
  exists w',
    Update_post sample_construct "song" 2
      (body_of "SONG" [("name", PStr "New"); ("_id", PInt 9)])
      (world_with_faults [None; Some "timed out"])
    = (Ok (generate_500_response
             "database query and replace failed - timed out", 500), w')
    /\ docs w' = docs sample_world.
Proof.
  assert (Hb : update_body "song"
                 (body_of "SONG" [("name", PStr "New"); ("_id", PInt 9)])
                 [("name", PStr "New"); ("_id", PInt 9)]).
  { exists [("audioFileType", PStr "SONG");
            ("audioFileMetadata",
             PDict [("name", PStr "New"); ("_id", PInt 9)])],
      "SONG"%string.
    repeat split. }
  destruct (Update_replace_fault sample_construct "song" 2
              (body_of "SONG" [("name", PStr "New"); ("_id", PInt 9)])
              [("name", PStr "New"); ("_id", PInt 9)] Song (song 2 "Theme")
              [("_id", PInt 9); ("type", PStr "Song"); ("name", PStr "New")]
              "timed out" [] (world_with_faults [None; Some "timed out"])
              eq_refl Hb eq_refl eq_refl eq_refl)
    as (w' & H & Hd & _).
  exists w'. split; assumption.
Defined.

(** ** Update: what a run can end in *)

Section UpdateOutcomes.

Variable construct : AudioType -> pyval -> res dict.

(** A 200 of Update, read backwards: the body that passed the checks, the
    document the lookup found, the generated fields, the reply and the
    world. *)
Lemma Update_post_200_inv (path : string) (id : Z) (data : pyval)
  (w w' : world) (body : dict) :
  Update_post construct path id data w = (Ok (body, 200), w') ->
  exists t md old fields,
    resolve path = Some t
    /\ update_body path data md
    /\ no_fault w
    /\ find (Store.matches (type_id_filter (Str.capitalize path) id)) (docs w)
       = Some old
    /\ construct t (PDict md) = Ok fields
    /\ (body, 200)
       = update_complete (Str.capitalize path) id (Some old)
           (dict_set "_id" (PInt id) fields)
    /\ docs w'
       = Store.replace_first (type_id_filter (Str.capitalize path) id)
           (dict_set "_id" (PInt id) fields) (docs w)
    /\ faults w' = tl (tl (faults w)).
Proof.
  intros H.
  destruct (Update_post_cases construct path id data w)
    as [(t & md & old & Ht & Hb & Hf & Hd)|(_ & _ & Hno)].
  2:{ exfalso. apply (Hno body). now rewrite H. }
  rewrite (Update_post_found construct path id data md t old w Ht Hb Hf Hd) in H.
  cbv zeta in H.
  exists t, md, old.
  destruct (construct t (PDict md)) as [fields|e].
  2:{ destruct e; discriminate. }
  exists fields. repeat (split; [assumption|]). split; [reflexivity|].
  destruct (faults _) as [|[detail|] fs]; try discriminate;
    injection H as <- <-; repeat split.
Qed.

(** Every outcome of Update has the shape of [enveloped]. *)
Lemma Update_post_enveloped (path : string) (id : Z) (data : pyval)
  (w : world) :
  enveloped (fst (Update_post construct path id data w)).
Proof.
  destruct (Update_post_cases construct path id data w)
    as [(t & md & old & Ht & Hb & Hf & Hd)|_].
  { rewrite (Update_post_found construct path id data md t old w Ht Hb Hf Hd).
    cbv zeta.
    destruct (construct t (PDict md)) as [fields|e].
    - destruct (faults _) as [|[detail|] fs]; cbn; auto.
    - destruct e; cbn; auto. }
  destruct (Update_post construct path id data w) as [r w'] eqn:E.
  cbn [fst].
  destruct (supported_dec path) as [Hs|Hs].
  2:{ rewrite (Update_post_unsupported construct _ _ _ _ Hs) in E.
      injection E as <- _. cbn. auto. }
  unfold Update_post in E. rewrite (supported_check _ Hs) in E.
  unfold bind_block at 1, bind at 1, try_except at 1 in E.
  destruct data as [| | | |l|d];
    try (injection E as <- _; cbn; eexists; reflexivity).
  unfold py_getitem in E.
  destruct (dict_get "audioFileType" d) as [a|];
    [|injection E as <- _; cbn; eexists; reflexivity].
  unfold bind at 1 in E. cbn [ret] in E.
  destruct (dict_get "audioFileMetadata" d) as [m|];
    [|injection E as <- _; cbn; eexists; reflexivity].
  unfold bind at 1 in E. cbn [ret continue] in E.
  destruct a as [| | |a| |]; try (injection E as <- _; cbn; auto).
  destruct m as [| | | | |md]; try (injection E as <- _; cbn; auto).
  cbn [isinstance_str isinstance_dict negb] in E.
  unfold py_capitalize, bind at 1 in E. cbn [ret] in E.
  destruct (String.eqb_spec (Str.capitalize a) (Str.capitalize path)) as [Hc|Hc];
    [|injection E as <- _; cbn; auto].
  cbn [negb] in E.
  unfold bind_block at 1, bind at 1, try_except at 1 in E.
  unfold Store.find_one at 1, bind at 1, Store.call in E.
  destruct (faults w) as [|[detail|] fs];
    try (injection E as <- _; cbn; auto).
  all: cbn [ret continue Store.called docs] in E.
  all: destruct (find _ (docs w)) as [old|] eqn:Hd;
    [|cbn [truthy_doc negb] in E; injection E as <- _; cbn; auto].
  all: change [("type", PStr (Str.capitalize path)); ("_id", PInt id)]
         with (type_id_filter (Str.capitalize path) id) in Hd.
  all: pose proof (find_some _ _ Hd) as [_ Hm].
  all: rewrite (StoreFacts.matches_truthy _ _ _ Hm) in E; cbn [negb] in E.
  all: apply StoreFacts.matches_type_id in Hm as [_ Hid].
  all: unfold bind_block at 1, bind at 1 in E.
  all: apply supported_resolve in Hs as [t Ht].
  all: rewrite (Update_build_run construct path t (PDict md) old (PInt id)
                  _ Ht Hid) in E.
  all: destruct (construct t (PDict md)) as [fields|e];
    [|destruct e; injection E as <- _; cbn; auto].
  all: cbn [ret] in E.
  all: unfold bind_block, bind, try_except, Store.find_one_and_replace,
         Store.call in E.
  all: destruct (faults _) as [|[detail|] fs'];
    injection E as <- _; cbn; auto.
Qed.

End UpdateOutcomes.

(** X17.  Whenever Update or Create returns a reply, the [status] field of
    its body is the status returned with it, one of 200, 400 and 500; and
    an exception that leaves either handler is a [TypeError] or the one
    [get_json] raised: every failure of the generator and of the store is
    turned into a reply. *)
Theorem Update_Create_enveloped
  (construct : AudioType -> pyval -> res dict)
  (path : string) (id : Z) (request : res pyval) (w : world) :
  enveloped_from request (fst (Update_request construct path id request w))
  /\ enveloped_from request (fst (Create_request construct request w)).
Proof.
  split.
  - unfold Update_request.
    destruct (negb (Str.mem (Str.lower (Str.capitalize path)) supported_types)).
    { cbn. auto. }
    unfold get_json, bind at 1.
    destruct request as [data|e]; [|cbn; auto].
    pose proof (Update_post_enveloped construct path id data w) as H.
    destruct (fst (Update_post construct path id data w)) as [[body code]|e];
      cbn in *; auto.
  - unfold Create_request, get_json, bind at 1.
    destruct request as [data|e]; [|cbn; auto].
    unfold Create_post, bind_block, bind, try_except, py_getitem.
    destruct data as [| | | |l|d]; try (cbn; left; eexists; reflexivity).
    destruct (dict_get "audioFileType" d) as [a|]; [|cbn; auto].
    destruct (dict_get "audioFileMetadata" d) as [m|]; [|cbn; auto].
    cbn. left. eexists; reflexivity.
Qed.

(** X7.  Update changes the collection only when it answers 200: after a
    run that ends in any other reply, or in an exception, the collection is
    the one the request found. *)
Theorem Update_changes_only_on_200
  (construct : AudioType -> pyval -> res dict)
  (path : string) (id : Z) (data : pyval) (w w' : world) (r : res reply) :
  Update_post construct path id data w = (r, w') ->
  (forall body, r <> Ok (body, 200)) ->
  docs w' = docs w.
Proof.
  intros H Hno.
  destruct (Update_post_cases construct path id data w)
    as [(t & md & old & Ht & Hb & Hf & Hd)|(_ & Hdocs & _)].
  2:{ now rewrite H in Hdocs. }
  rewrite (Update_post_found construct path id data md t old w Ht Hb Hf Hd) in H.
  cbv zeta in H.
  destruct (construct t (PDict md)) as [fields|e].
  - destruct (faults _) as [|[detail|] fs]; injection H as <- <-;
      try reflexivity; exfalso; eapply Hno; reflexivity.
  - destruct e; injection H as <- <-; reflexivity.
Qed.

Lemma Update_changes_only_on_200_witness :
  docs (snd (Update_post sample_construct "song" 2
               (body_of "SONG" [("name", PStr "New")]) sample_world))
  = docs sample_world.
Proof.
  apply (Update_changes_only_on_200 sample_construct "song" 2
           (body_of "SONG" [("name", PStr "New")]) sample_world _
           (fst (Update_post sample_construct "song" 2
                   (body_of "SONG" [("name", PStr "New")]) sample_world))).
  - reflexivity.
  - intros body H. discriminate H.
Defined.

(** ** Composition of requests *)

Lemma find_replace_first (flt new old : dict) (ds : list dict) :
  find (Store.matches flt) ds = Some old ->
  Store.matches flt new = true ->
  find (Store.matches flt) (Store.replace_first flt new ds) = Some new.
Proof.
  intros Hd Hn. induction ds as [|x ds IH]; simpl in *; [discriminate|].
  destruct (Store.matches flt x) eqn:E; simpl.
  - now rewrite Hn.
  - rewrite E. now apply IH.
Qed.

Lemma filter_remove_first (ty : string) (id : Z) (ds : list dict) :
  filter (Store.matches [("type", PStr ty)])
    (Store.remove_first (type_id_filter ty id) ds)
  = Store.remove_first (type_id_filter ty id)
      (filter (Store.matches [("type", PStr ty)]) ds).
Proof.
  induction ds as [|x ds IH]; [reflexivity|].
  cbn [filter Store.remove_first].
  destruct (Store.matches (type_id_filter ty id) x) eqn:E.
  - assert (Ht : Store.matches [("type", PStr ty)] x = true).
    { apply StoreFacts.matches_type.
      now apply StoreFacts.matches_type_id in E as [-> _]. }
    rewrite Ht. cbn [Store.remove_first]. now rewrite E.
  - cbn [filter].
    destruct (Store.matches [("type", PStr ty)] x);
      cbn [Store.remove_first]; [rewrite E|]; now rewrite IH.
Qed.

Lemma filter_nil_find {A} (f : A -> bool) (l : list A) :
  filter f l = [] -> find f l = None.
Proof.
  induction l as [|x l IH]; simpl; [reflexivity|].
  destruct (f x); [discriminate | exact IH].
Qed.

(** What Delete leaves in the collection, when the store answers. *)
Lemma Delete_get_docs (path : string) (id : Z) (w : world) :
  supported path -> no_fault w ->
  docs (snd (Delete_get path id w))
  = Store.remove_first (type_id_filter (Str.capitalize path) id) (docs w)
  /\ faults (snd (Delete_get path id w)) = tl (faults w).
Proof.
  intros Hs Hf.
  destruct (find (Store.matches (type_id_filter (Str.capitalize path) id))
              (docs w)) as [d|] eqn:Hd.
  - rewrite (Delete_get_found _ _ _ _ Hs Hf Hd). split; reflexivity.
  - rewrite (Delete_get_not_found _ _ _ Hs Hf Hd).
    destruct (StoreFacts.find_none_unchanged _ _ Hd) as [-> _].
    split; reflexivity.
Qed.

(** X4.  Delete, then Get without identifier: the list of the second
    request is the list Get would have given before the Delete, without the
    first document of the identifier, the other documents in their order
    (and the same list when Delete found nothing). *)
Theorem Delete_then_Get_all (path : string) (id : Z) (w : world) :
  supported path ->
  no_fault w ->
  no_fault (snd (Delete_get path id w)) ->
  exists listed,
    fst (Get_get path None w) = Ok (get_complete listed)
    /\ fst (Get_get path None (snd (Delete_get path id w)))
       = Ok (get_complete
               (Store.remove_first (type_id_filter (Str.capitalize path) id)
                  listed)).
Proof.
  intros Hs Hf Hf'.
  destruct (Get_get_run path None w Hs Hf) as (l1 & -> & H1).
  destruct (Get_get_run path None _ Hs Hf') as (l2 & -> & H2).
  cbn [truthy_int] in H1, H2.
  destruct (Delete_get_docs path id w Hs Hf) as [Hdocs _].
  rewrite Hdocs, filter_remove_first, <- H1 in H2. subst l2.
  exists l1. split; reflexivity.
Qed.

Lemma Delete_then_Get_all_witness :
  supported "song"
  /\ exists listed,
       fst (Get_get "song" None sample_world) = Ok (get_complete listed)
       /\ fst (Get_get "song" None (snd (Delete_get "song" 0 sample_world)))
          = Ok (get_complete
                  (Store.remove_first (type_id_filter "Song" 0) listed)).
Proof.
  assert (Hs : supported "song") by reflexivity.
  split; [exact Hs|].
  exact (Delete_then_Get_all "song" 0 sample_world Hs I I).
Defined.

Lemma find_remove_first_unique (flt : dict) (ds : list dict) :
  (length (filter (Store.matches flt) ds) <= 1)%nat ->
  find (Store.matches flt) (Store.remove_first flt ds) = None.
Proof.
  induction ds as [|x ds IH]; [reflexivity|].
  cbn [filter Store.remove_first].
  destruct (Store.matches flt x) eqn:E.
  - cbn [length]. intros H. apply filter_nil_find.
    destruct (filter (Store.matches flt) ds); [reflexivity|].
    cbn [length] in H. lia.
  - intros H. cbn [find]. rewrite E. now apply IH.
Qed.

Lemma truthy_int_nonzero (id : Z) : id <> 0 -> truthy_int (Some id) = true.
Proof.
  intros H. unfold truthy_int. apply Z.eqb_neq in H. now rewrite H.
Qed.

(** X12.  When at most one document of the collection has the type and
    the identifier, a Delete leaves none: the same Delete made again
    answers [No document deleted], and a Get of that identifier (not 0)
    answers 200 with an empty list and [matches] 0. *)
Theorem Delete_then_gone (path : string) (id : Z) (w : world) :
  supported path ->
  no_fault w ->
  (length (filter (Store.matches (type_id_filter (Str.capitalize path) id))
             (docs w)) <= 1)%nat ->
  no_fault (snd (Delete_get path id w)) ->
  fst (Delete_get path id (snd (Delete_get path id w)))
  = Ok no_document_deleted
  /\ (id <> 0 ->
      fst (Get_get path (Some id) (snd (Delete_get path id w)))
      = Ok (get_complete [])).
Proof.
  intros Hs Hf Huniq Hf'.
  destruct (Delete_get_docs path id w Hs Hf) as [Hdocs _].
  pose proof (find_remove_first_unique _ _ Huniq) as Hnone.
  rewrite <- Hdocs in Hnone.
  split.
  - now rewrite (Delete_get_not_found _ _ _ Hs Hf' Hnone).
  - intros Hid.
    destruct (Get_get_run path (Some id) _ Hs Hf') as (result & -> & Hres).
    rewrite (truthy_int_nonzero _ Hid), Hnone in Hres. now subst result.
Qed.

Lemma Delete_then_gone_witness :
  supported "song"
  /\ fst (Delete_get "song" 2 (snd (Delete_get "song" 2 sample_world)))
     = Ok no_document_deleted
  /\ fst (Get_get "song" (Some 2) (snd (Delete_get "song" 2 sample_world)))
     = Ok (get_complete []).
Proof.
  assert (Hs : supported "song") by reflexivity.
  assert (Hu : (length (filter (Store.matches
                                  (type_id_filter (Str.capitalize "song") 2))
                          (docs sample_world)) <= 1)%nat)
    by (apply Nat.leb_le; reflexivity).
  destruct (Delete_then_gone "song" 2 sample_world Hs I Hu I) as [H1 H2].
  split; [exact Hs|]. split; [exact H1|].
  apply H2. discriminate.
Defined.

(** X10.  A Get with an identifier other than 0, a supported type and no
    fault answers 200 with at most one document; a document it lists is in
    the collection and has the capitalized type of the path and the
    identifier asked for; and it lists one as soon as the collection holds
    such a document. *)
Theorem Get_by_identifier (path : string) (id : Z) (w : world) :
  supported path ->
  no_fault w ->
  id <> 0 ->
  exists result w',
    Get_get path (Some id) w = (Ok (get_complete result), w')
    /\ (length result <= 1)%nat
    /\ (forall d, In d result ->
          In d (docs w)
          /\ dict_get "type" d = Some (PStr (Str.capitalize path))
          /\ dict_get "_id" d = Some (PInt id))
    /\ (forall d, In d (docs w) ->
          dict_get "type" d = Some (PStr (Str.capitalize path)) ->
          dict_get "_id" d = Some (PInt id) ->
          length result = 1%nat).
Proof.
  intros Hs Hf Hid.
  destruct (Get_get_run path (Some id) w Hs Hf) as (result & Hrun & Hres).
  rewrite (truthy_int_nonzero _ Hid) in Hres.
  exists result. eexists. split; [exact Hrun|].
  destruct (find _ (docs w)) as [d0|] eqn:Hd; subst result.
  - split; [cbn; lia|]. split; [|reflexivity].
    intros d [<-|[]]. apply find_some in Hd as [Hin Hm].
    apply StoreFacts.matches_type_id in Hm as [Hty Hi]. auto.
  - split; [cbn; lia|]. split; [intros d []|].
    intros d Hin Hty Hi. exfalso.
    pose proof (find_none _ _ Hd d Hin) as Hm.
    assert (Ht : Store.matches (type_id_filter (Str.capitalize path) id) d
                 = true) by (apply StoreFacts.matches_type_id; auto).
    congruence.
Qed.

Lemma Get_by_identifier_witness :
  supported "song"
  /\ exists result w',
       Get_get "song" (Some 2) sample_world = (Ok (get_complete result), w')
       /\ length result = 1%nat.
Proof.
  assert (Hs : supported "song") by reflexivity.
  assert (Hn : 2 <> 0) by discriminate.
  split; [exact Hs|].
  destruct (Get_by_identifier "song" 2 sample_world Hs I Hn)
    as (result & w' & Hrun & _ & _ & Hone).
  exists result, w'. split; [exact Hrun|].
  apply (Hone (song 2 "Theme")); [|reflexivity|reflexivity].
  right. right. left. reflexivity.
Defined.

(** X11.  Update, then Get of the same identifier (not 0): when the
    generated record carries the capitalized type of the path in its [type]
    field, the Get answers 200 with one document, the [post-update]
    snapshot of the Update. *)
Theorem Update_then_Get
  (construct : AudioType -> pyval -> res dict)
  (path : string) (id : Z) (data : pyval) (w w' : world) (body new : dict) :
  Update_post construct path id data w = (Ok (body, 200), w') ->
  dict_get "post-update" body = Some (PDict new) ->
  dict_get "type" new = Some (PStr (Str.capitalize path)) ->
  id <> 0 ->
  no_fault w' ->
  fst (Get_get path (Some id) w') = Ok (get_complete [new]).
Proof.
  intros Hrun Hpost Hty Hid Hf'.
  destruct (Update_post_200_inv construct path id data w w' body Hrun)
    as (t & md & old & fields & Ht & Hb & Hf & Hd & Hc & Hbody & Hdocs & _).
  injection Hbody as ->. cbn in Hpost. injection Hpost as <-.
  assert (Hs : supported path) by (apply supported_resolve; eauto).
  assert (Hm : Store.matches (type_id_filter (Str.capitalize path) id)
                 (dict_set "_id" (PInt id) fields) = true).
  { apply StoreFacts.matches_type_id. split; [exact Hty|].
    apply dict_get_set_same. }
  pose proof (find_replace_first _ _ _ _ Hd Hm) as Hfind.
  rewrite <- Hdocs in Hfind.
  destruct (Get_get_run path (Some id) w' Hs Hf') as (result & -> & Hres).
  rewrite (truthy_int_nonzero _ Hid), Hfind in Hres. now subst result.
Qed.

Lemma Update_then_Get_witness :
  exists body w',
    Update_post sample_construct "song" 2
      (body_of "SONG" [("name", PStr "New"); ("_id", PInt 9)]) sample_world
    = (Ok (body, 200), w')
    /\ fst (Get_get "song" (Some 2) w') = Ok (get_complete [song 2 "New"]).
Proof.
  pose (run := Update_post sample_construct "song" 2
                 (body_of "SONG" [("name", PStr "New"); ("_id", PInt 9)])
                 sample_world).
  pose (body := fst (update_complete "Song" 2 (Some (song 2 "Theme"))
                       (song 2 "New"))).
  assert (Hrun : run = (Ok (body, 200), snd run)) by reflexivity.
  exists body, (snd run). split; [exact Hrun|].
  apply (Update_then_Get sample_construct "song" 2
           (body_of "SONG" [("name", PStr "New"); ("_id", PInt 9)])
           sample_world (snd run) body (song 2 "New") Hrun).
  - reflexivity.
  - reflexivity.
  - discriminate.
  - exact I.
Defined.

(** ** Update: failures of the generator *)

(** X18.  When a constructor is called in a run of Update and fails with
    [MetadataValueError], the reply is the 400 with the text of the error;
    when it fails with [MetadataGenerationError], the reply is the 500 with
    [metadata generation for], the capitalized type of the path and the
    text of the error. *)
Theorem Update_generator_failure_replies
  (construct : AudioType -> pyval -> res dict)
  (path : string) (id : Z) (data : pyval) (w w' : world) (r : res reply)
  (l : list event) (t : AudioType) (md : pyval) :
  Update_post construct path id data w = (r, w') ->
  log w' = log w ++ l ->
  In (EvConstruct t md) l ->
  (forall detail,
      construct t md = Exc (MetadataValueError detail) ->
      r = Ok (generate_400_response detail, 400))
  /\ (forall detail,
         construct t md = Exc (MetadataGenerationError detail) ->
         r = Ok (generate_500_response
                   ("metadata generation for " ++ Str.capitalize path
                    ++ " - " ++ detail)%string, 500)).
Proof.
  intros Hrun Hlog Hin.
  destruct (Update_post_cases construct path id data w)
    as [(t0 & md0 & old & Ht & Hb & Hf & Hd)|((l0 & Hl0 & Hall) & _ & _)].
  2:{ exfalso. rewrite Hrun in Hl0. cbn [snd] in Hl0.
      rewrite Hlog in Hl0. apply app_inv_head in Hl0. subst l0.
      rewrite Forall_forall in Hall. now apply Hall in Hin. }
  rewrite (Update_post_found construct path id data md0 t0 old w Ht Hb Hf Hd)
    in Hrun.
  cbv zeta in Hrun.
  assert (Heq : t = t0 /\ md = PDict md0).
  { destruct (construct t0 (PDict md0)) as [fields|e].
    - assert (Hl : l = [EvFindOne (type_id_filter (Str.capitalize path) id);
                        EvConstruct t0 (PDict md0);
                        EvFindOneAndReplace
                          (type_id_filter (Str.capitalize path) id)
                          (dict_set "_id" (PInt id) fields)]).
      { destruct (faults _) as [|[detail|] fs]; injection Hrun as _ <-;
          cbn [log Store.with_docs Store.called log_event] in Hlog;
          rewrite <- !app_assoc in Hlog; apply app_inv_head in Hlog;
          now subst l. }
      subst l. cbn in Hin.
      destruct Hin as [Hin|[Hin|[Hin|[]]]]; try discriminate.
      injection Hin as <- <-. auto.
    - assert (Hl : l = [EvFindOne (type_id_filter (Str.capitalize path) id);
                        EvConstruct t0 (PDict md0)]).
      { destruct e; injection Hrun as _ <-;
          cbn [log Store.called log_event] in Hlog;
          rewrite <- !app_assoc in Hlog; apply app_inv_head in Hlog;
          now subst l. }
      subst l. cbn in Hin.
      destruct Hin as [Hin|[Hin|[]]]; try discriminate.
      injection Hin as <- <-. auto. }
  destruct Heq as [-> ->].
  split; intros detail Hc; rewrite Hc in Hrun; now injection Hrun as <- _.
Qed.

Lemma Update_generator_failure_replies_witness :
  fst (Update_post sample_construct "song" 2 (body_of "SONG" []) sample_world)
  = Ok (generate_400_response "name is required", 400)
  /\ fst (Update_post sample_construct "song" 2
            (body_of "SONG" [("name", PStr "New")]) sample_world)
     = Ok (generate_500_response
             "metadata generation for Song - no identifier to derive", 500).
Proof.
  pose (flt := type_id_filter "Song" 2).
  split.
  - pose (run := Update_post sample_construct "song" 2 (body_of "SONG" [])
                   sample_world).
    change (fst run = Ok (generate_400_response "name is required", 400)).
    apply (proj1 (Update_generator_failure_replies sample_construct
             "song" 2 (body_of "SONG" []) sample_world (snd run) (fst run)
             [EvFindOne flt; EvConstruct Song (PDict [])] Song (PDict [])
             eq_refl eq_refl (or_intror (or_introl eq_refl)))).
    reflexivity.
  - pose (run := Update_post sample_construct "song" 2
                   (body_of "SONG" [("name", PStr "New")]) sample_world).
    change (fst run
            = Ok (generate_500_response
                    "metadata generation for Song - no identifier to derive",
                  500)).
    apply (proj2 (Update_generator_failure_replies sample_construct
             "song" 2 (body_of "SONG" [("name", PStr "New")]) sample_world
             (snd run) (fst run)
             [EvFindOne flt; EvConstruct Song (PDict [("name", PStr "New")])]
             Song (PDict [("name", PStr "New")])
             eq_refl eq_refl (or_intror (or_introl eq_refl)))
             "no identifier to derive").
    reflexivity.
Defined.
